(** * gossh: a shallow embedding of the command-line front end and of the
      worker-pool dispatcher, with the properties of the design document
      checked against the code.

    Two programs of the repository are embedded:
    - [MainGo]: [main.go] (version 0.4.1), the front end built on the
      [gosshclient] package;
    - [Part000]: the single-file program (version 0.0.1) that carries
      [NewServerList], [load] and [execute] itself.

    Go strings are byte strings and are modelled by [string] (a list of
    [ascii] bytes); Go's [int] is modelled by [Z] (no arithmetic on it here
    can overflow: it is only compared). *)

From Stdlib Require Import ZArith List String Ascii Bool Lia Permutation Arith.
Import ListNotations.
Open Scope string_scope.
Open Scope Z_scope.

(* ================================================================= *)
(** ** The Go standard library, as far as the programs use it *)

Module GoLib.

(** [strings.Split(s, sep)] for a one-byte separator: every separator byte
    ends the current piece; the result is never empty, and the empty
    string gives one empty piece. *)
Fixpoint Split (s : string) (sep : ascii) : list string :=
  match s with
  | EmptyString => [EmptyString]
  | String c rest =>
      if Ascii.eqb c sep then EmptyString :: Split rest sep
      else match Split rest sep with
           | [] => [String c EmptyString]
           | piece :: pieces => String c piece :: pieces
           end
  end.

(** [strings.Join(l, sep)] for a one-byte separator. *)
Fixpoint Join (l : list string) (sep : ascii) : string :=
  match l with
  | [] => EmptyString
  | [x] => x
  | x :: rest => x ++ String sep (Join rest sep)
  end.

(** Number of occurrences of a byte, [strings.Count] for one byte. *)
Fixpoint Count (s : string) (c : ascii) : nat :=
  match s with
  | EmptyString => 0%nat
  | String d rest => ((if Ascii.eqb d c then 1 else 0) + Count rest c)%nat
  end.

(** Does the byte occur in the string? *)
Fixpoint Contains (s : string) (c : ascii) : bool :=
  match s with
  | EmptyString => false
  | String d rest => Ascii.eqb d c || Contains rest c
  end.

(** The white space of [unicode.IsSpace] in the ASCII range:
    tab, line feed, vertical tab, form feed, carriage return, space. *)
Definition isSpace (c : ascii) : bool :=
  let n := nat_of_ascii c in
  ((9 <=? n) && (n <=? 13) || (n =? 32))%nat.

Fixpoint TrimLeftSpace (s : string) : string :=
  match s with
  | EmptyString => EmptyString
  | String c rest => if isSpace c then TrimLeftSpace rest else s
  end.

Fixpoint TrimRightSpace (s : string) : string :=
  match s with
  | EmptyString => EmptyString
  | String c rest =>
      match TrimRightSpace rest with
      | EmptyString => if isSpace c then EmptyString else String c EmptyString
      | kept => String c kept
      end
  end.

(** [strings.TrimSpace] on a string of ASCII bytes: leading and trailing
    white space removed.  (On bytes above 127 Go decodes UTF-8 and also
    removes the Unicode spaces; statements about [TrimSpace] below are
    for ASCII input.) *)
Definition TrimSpace (s : string) : string := TrimRightSpace (TrimLeftSpace s).

Definition isASCII (c : ascii) : bool := (nat_of_ascii c <? 128)%nat.

Fixpoint allASCII (s : string) : bool :=
  match s with
  | EmptyString => true
  | String c rest => isASCII c && allASCII rest
  end.

(** Last byte of a string, if any. *)
Fixpoint lastByte (s : string) : option ascii :=
  match s with
  | EmptyString => None
  | String c EmptyString => Some c
  | String _ rest => lastByte rest
  end.

Definition firstByte (s : string) : option ascii :=
  match s with
  | EmptyString => None
  | String c _ => Some c
  end.

Definition endsInSpace (s : string) : bool :=
  match lastByte s with Some c => isSpace c | None => false end.

Definition startsWithSpace (s : string) : bool :=
  match firstByte s with Some c => isSpace c | None => false end.

Fixpoint allSpace (s : string) : bool :=
  match s with
  | EmptyString => true
  | String c rest => isSpace c && allSpace rest
  end.

(** Go's [error] values are carried by their message. *)
Definition error := string.

End GoLib.
Import GoLib.

Definition comma : ascii := ","%char.

(* ================================================================= *)
(** ** The process: what it observes, what it does, how it ends *)

Module Proc.

(** A Go call returning [(value, error)]. *)
Inductive errorOr (A : Type) : Type :=
| Val (a : A)
| Err (e : error).
Arguments Val {A} a.
Arguments Err {A} e.

(** A parsed private key ([ssh.Signer]); the model keeps the key text. *)
Inductive Signer := SignerOf (key : string).

(** What the process does that the design document talks about. *)
Inductive event : Type :=
| Stdout (s : string)               (* fmt.Print, fmt.Println *)
| PrintDefaults                     (* flag.PrintDefaults() *)
| LogFatal (s : string)             (* what log.Fatal writes before it exits *)
| ReadPasswordNoEcho                (* terminal.ReadPassword(stdin), echo off *)
| DialAgent (sock : string)         (* net.Dial("unix", sock) *)
| ReadFile (path : string)          (* ioutil.ReadFile(path) *)
| Dispatch (servers : list string). (* the pool starts: hosts are contacted from here on *)

(** The environment a run reads: it does not change during the run. *)
Record Env : Type := {
  Getenv : string -> string;                        (* os.Getenv *)
  NumCPU : Z;                                       (* runtime.NumCPU() *)
  ReadInConfig : option error;                      (* viper.ReadInConfig() *)
  net_Dial_unix : string -> option error;           (* net.Dial("unix", _) *)
  ioutil_ReadFile : string -> errorOr string;
  ssh_ParsePrivateKey : string -> errorOr Signer;
  knownhosts_New : string -> option error;
  Sprintf0 : string -> string                       (* fmt.Sprintf(format), no operands *)
}.

(** What changes during a run: the lines still to be typed at the
    terminal (each read may fail), and the events so far, oldest first. *)
Record State : Type := {
  stdin : list (errorOr string);
  trace : list event
}.

(** A step of the program either goes on with a value or ends the
    process with an exit code ([os.Exit]); the state is kept either way. *)
Inductive Result (A : Type) : Type :=
| Ret (a : A)
| Exit (code : Z).
Arguments Ret {A} a.
Arguments Exit {A} code.

Definition M (A : Type) : Type := State -> Result A * State.

Definition ret {A} (a : A) : M A := fun st => (Ret a, st).

Definition bind {A B} (m : M A) (k : A -> M B) : M B :=
  fun st =>
    match m st with
    | (Ret a, st') => k a st'
    | (Exit code, st') => (Exit code, st')
    end.

Definition emit (e : event) : M unit :=
  fun st => (Ret tt, {| stdin := stdin st; trace := trace st ++ [e] |}).

Definition os_Exit {A} (code : Z) : M A := fun st => (Exit code, st).

(** [log.Fatal] writes its message and calls [os.Exit(1)]. *)
Definition log_Fatal {A} (msg : string) : M A :=
  bind (emit (LogFatal msg)) (fun _ => os_Exit 1).

(** [terminal.ReadPassword]: one line from the terminal, echo disabled. *)
Definition terminal_ReadPassword : M (errorOr string) :=
  fun st =>
    match stdin st with
    | [] => (Ret (Err "EOF"), {| stdin := []; trace := trace st ++ [ReadPasswordNoEcho] |})
    | line :: rest => (Ret line, {| stdin := rest; trace := trace st ++ [ReadPasswordNoEcho] |})
    end.

(** The exit status the shell sees: [main] returning is status 0. *)
Definition exit_status {A} (r : Result A * State) : Z :=
  match fst r with
  | Ret _ => 0
  | Exit code => code
  end.

Definition exited {A} (r : Result A * State) : bool :=
  match fst r with
  | Ret _ => false
  | Exit _ => true
  end.

Definition is_Dispatch (e : event) : bool :=
  match e with Dispatch _ => true | _ => false end.

Definition is_ReadPassword (e : event) : bool :=
  match e with ReadPasswordNoEcho => true | _ => false end.

(** No host has been contacted in a trace that has no [Dispatch]. *)
Definition no_host_contacted (t : list event) : bool :=
  forallb (fun e => negb (is_Dispatch e)) t.

Definition prompts (t : list event) : nat :=
  List.length (filter is_ReadPassword t).

(** A process starts with what will be typed and no event yet. *)
Definition start_state (input : list (errorOr string)) : State :=
  {| stdin := input; trace := [] |}.

Definition final_trace {A} (r : Result A * State) : list event := trace (snd r).

(** [ssh.HostKeyCallback] *)
Inductive HostKeyCallback : Type :=
| InsecureIgnoreHostKey
| KnownHosts (file : string).

(** [ssh.AuthMethod]: an interface value, [nil] included. *)
Inductive AuthMethod : Type :=
| nilAuthMethod
| PublicKeysCallback (sock : string)             (* the agent's signers *)
| PublicKeys (signer : option Signer)             (* [None]: a nil signer *)
| PasswordCallback (prompt : M (string * option error)).

Definition is_nil (a : AuthMethod) : bool :=
  match a with nilAuthMethod => true | _ => false end.

(** [ssh.ClientConfig] *)
Record ClientConfig : Type := {
  User : string;
  Auth : list AuthMethod;
  HostKey : HostKeyCallback;
  Timeout : Z                                    (* seconds *)
}.





End Proc.
Import Proc.

Declare Scope proc_scope.
Delimit Scope proc_scope with proc.
Notation "x <- m ;; k" := (bind m (fun x => k))
  (at level 61, m at next level, right associativity) : proc_scope.
Notation "m ;; k" := (bind m (fun _ => k))
  (at level 61, right associativity) : proc_scope.


(* ================================================================= *)
(** ** [main.go] *)

Module MainGo.
Local Open Scope proc_scope.

Definition VERSION : string := "0.4.1".

(** [gosshclient.ServerList]: [main] takes its [len]. *)
Definition ServerList : Type := list string.

Definition len {A} (l : list A) : Z := Z.of_nat (List.length l).

(** Modelled from the spec: [gosshclient.ClientResponse], whose declaration
    is in the package [gossh/gosshclient], is "host identity, captured
    output, execution error (nilable)". *)
Record ClientResponse : Type := {
  Host : string;
  Output : string;
  ExecError : option error
}.

(** The client under construction: what [main] sets on it. *)
Record GosshClient : Type := {
  servers : ServerList;
  port : Z;
  proxyHost : string;
  sudo : bool;
  routines : Z;
  clientConfig : option ClientConfig
}.

Definition NewGosshClient (s : ServerList) : GosshClient :=
  {| servers := s; port := 22; proxyHost := ""; sudo := false;
     routines := 0; clientConfig := None |}.

Definition Port (p : Z) (g : GosshClient) : GosshClient :=
  {| servers := servers g; port := p; proxyHost := proxyHost g; sudo := sudo g;
     routines := routines g; clientConfig := clientConfig g |}.

Definition ProxyHost (h : string) (g : GosshClient) : GosshClient :=
  {| servers := servers g; port := port g; proxyHost := h; sudo := sudo g;
     routines := routines g; clientConfig := clientConfig g |}.

Definition Sudo (g : GosshClient) : GosshClient :=
  {| servers := servers g; port := port g; proxyHost := proxyHost g; sudo := true;
     routines := routines g; clientConfig := clientConfig g |}.

Definition Routines (n : Z) (g : GosshClient) : GosshClient :=
  {| servers := servers g; port := port g; proxyHost := proxyHost g; sudo := sudo g;
     routines := n; clientConfig := clientConfig g |}.

Definition SetClientConfig (c : ClientConfig) (g : GosshClient) : GosshClient :=
  {| servers := servers g; port := port g; proxyHost := proxyHost g; sudo := sudo g;
     routines := routines g; clientConfig := Some c |}.

(** The part of the package [gossh/gosshclient] that [main] calls and that
    is not among the sources: the parser of the host list, the two ways to
    run the pool, and the printer of a response.  [main] is stated for any
    such package. *)
Record gosshclient : Type := {
  gc_NewServerList : string -> ServerList * option error;
  gc_ExecuteScript : GosshClient -> string -> M (list ClientResponse * option error);
  gc_ExecuteCommands : GosshClient -> list string -> M (list ClientResponse * option error);
  gc_String : ClientResponse -> string
}.

(** The command line after [flagSet.Parse]. *)
Record Flags : Type := {
  helpFlag : bool;
  userFlag : string;
  identityFileFlag : string;
  sudoFlag : bool;
  scriptFlag : string;
  portFlag : Z;
  proxyHostFlag : string;
  procsFlag : Z;
  versionFlag : bool;
  sshAgentForwardFlag : bool;
  knownHostsFileFlag : string;
  strictHostCheckFlag : bool;        (* set by --NoStrictHostCheck *)
  Args : list string                 (* flagSet.Args() *)
}.

(** The flags' default values, as [main] declares them. *)
Definition defaultFlags (env : Env) (args : list string) : Flags :=
  {| helpFlag := false;
     userFlag := Getenv env "USER";
     identityFileFlag := "";
     sudoFlag := false;
     scriptFlag := "";
     portFlag := 22;
     proxyHostFlag := "";
     procsFlag := NumCPU env;
     versionFlag := false;
     sshAgentForwardFlag := false;
     knownHostsFileFlag := Getenv env "HOME" ++ "/.ssh/known_hosts";
     strictHostCheckFlag := false;
     Args := args |}.

Definition usage {A} (exitstatus : Z) (msg : list string) : M A :=
  (match msg with
   | m :: _ => emit (Stdout m)
   | [] => ret tt
   end) ;;
  emit PrintDefaults ;;
  os_Exit exitstatus.

Definition passwordCallback : M (string * option error) :=
  emit (Stdout "Password: ") ;;
  r <- terminal_ReadPassword ;;
  emit (Stdout "") ;;
  match r with
  | Err e => ret ("", Some e)
  | Val password => ret (TrimSpace password, None)
  end.

Definition sshPassword : AuthMethod := PasswordCallback passwordCallback.

Definition sshPrivateKey (env : Env) (identityFile : string) : M AuthMethod :=
  let failOnErr := negb (String.eqb identityFile "") in
  let identityFile :=
    if String.eqb identityFile "" then Getenv env "HOME" ++ "/.ssh/id_rsa"
    else identityFile in
  emit (ReadFile identityFile) ;;
  match ioutil_ReadFile env identityFile with
  | Err e =>
      if failOnErr then log_Fatal ("Could not read Identity File: " ++ e)
      else ret nilAuthMethod
  | Val key =>
      match ssh_ParsePrivateKey env key with
      | Err e => log_Fatal ("Could not parse private key: " ++ e)
      | Val signer => ret (PublicKeys (Some signer))
      end
  end.

Definition sshAgent (env : Env) : M AuthMethod :=
  let sock := Getenv env "SSH_AUTH_SOCK" in
  emit (DialAgent sock) ;;
  match net_Dial_unix env sock with
  | Some _ => ret nilAuthMethod
  | None => ret (PublicKeysCallback sock)
  end.

(** The worker count [main] hands to the client (lines 101-105). *)
Definition mainRoutines (procsFlag : Z) (servers : ServerList) : Z :=
  if (procsFlag =? -1) || (len servers <? procsFlag) then len servers
  else procsFlag.

(** The method list [main] builds: the three calls, left to right. *)
Definition sshAuthMethods (env : Env) (identityFile : string) : M (list AuthMethod) :=
  a <- sshAgent env ;;
  k <- sshPrivateKey env identityFile ;;
  ret [a; k; sshPassword].

Fixpoint printResults (gc : gosshclient) (results : list ClientResponse) : M unit :=
  match results with
  | [] => ret tt
  | res :: rest => emit (Stdout (gc_String gc res)) ;; printResults gc rest
  end.

(** The package with the parser of the single-file program in the place
    of [gosshclient.NewServerList]. *)
Definition with_parser (parser : string -> ServerList * option error)
    (gc : gosshclient) : gosshclient :=
  {| gc_NewServerList := parser;
     gc_ExecuteScript := gc_ExecuteScript gc;
     gc_ExecuteCommands := gc_ExecuteCommands gc;
     gc_String := gc_String gc |}.

(** Neither a script nor command tokens are given. *)
Definition no_workload (f : Flags) : bool :=
  String.eqb (scriptFlag f) "" && match tl (Args f) with [] => true | _ => false end.

(** The flags let [main] go past its usage exits of lines 74-89. *)
Definition flags_pass (gc : gosshclient) (f : Flags) : bool :=
  negb (helpFlag f) && negb (versionFlag f)
  && match Args f with
     | [] => false
     | arg0 :: _ => match snd (gc_NewServerList gc arg0) with None => true | Some _ => false end
     end.

(** The host keys are available: checking is disabled or the known-hosts
    file is loaded. *)
Definition trust_pass (env : Env) (f : Flags) : bool :=
  strictHostCheckFlag f
  || match knownhosts_New env (Sprintf0 env (knownHostsFileFlag f)) with
     | None => true
     | Some _ => false
     end.

(** [main] up to the point where the pool is started (lines 43-125):
    the flags are checked, the client is set up, the known hosts are
    loaded and the authentication methods are built. *)
Definition configure (gc : gosshclient) (env : Env) (f : Flags) : M GosshClient :=
  (match ReadInConfig env with
   | Some e => emit (Stdout e)
   | None => ret tt
   end) ;;
  (if helpFlag f then usage 0 [] else ret tt) ;;
  (if versionFlag f then emit (Stdout VERSION) ;; os_Exit 0 else ret tt) ;;
  servers <-
    (match Args f with
     | [] => usage 2 ["At least one argument (host) is required."]
     | arg0 :: _ =>
         match gc_NewServerList gc arg0 with
         | (_, Some e) => usage 3 ["Server list could not be parsed: " ++ e]
         | (servers, None) => ret servers
         end
     end) ;;
  let gclient := ProxyHost (proxyHostFlag f) (Port (portFlag f) (NewGosshClient servers)) in
  let gclient := if sudoFlag f then Sudo gclient else gclient in
  let gclient := Routines (mainRoutines (procsFlag f) servers) gclient in
  hostKeyCallback <-
    (if strictHostCheckFlag f then ret InsecureIgnoreHostKey
     else match knownhosts_New env (Sprintf0 env (knownHostsFileFlag f)) with
          | Some e => log_Fatal ("Could not parse known_hosts file: " ++ e)
          | None => ret (KnownHosts (Sprintf0 env (knownHostsFileFlag f)))
          end) ;;
  methods <- sshAuthMethods env (identityFileFlag f) ;;
  let sshClientConfig :=
    {| User := userFlag f; Auth := methods; HostKey := hostKeyCallback; Timeout := 20 |} in
  ret (SetClientConfig sshClientConfig gclient).

(** The pool is run on the script or on the command tokens (lines
    127-134); from [Dispatch] on, hosts are contacted. *)
Definition dispatch (gc : gosshclient) (f : Flags) (gclient : GosshClient)
  : M (list ClientResponse * option error) :=
  if negb (String.eqb (scriptFlag f) "") then
    emit (Dispatch (servers gclient)) ;; gc_ExecuteScript gc gclient (scriptFlag f)
  else match tl (Args f) with
       | _ :: _ =>
           emit (Dispatch (servers gclient)) ;;
           gc_ExecuteCommands gc gclient (tl (Args f))
       | [] => usage 3 ["No script or commands provided."]
       end.

(** The end of [main] (lines 135-141). *)
Definition report (gc : gosshclient) (r : list ClientResponse * option error) : M unit :=
  match r with
  | (_, Some e) => log_Fatal ("Error: " ++ e)
  | (results, None) => printResults gc results
  end.

(** [main]: the configuration, the run of the pool, the report. *)
Definition main (gc : gosshclient) (env : Env) (f : Flags) : M unit :=
  gclient <- configure gc env f ;;
  r <- dispatch gc f gclient ;;
  report gc r.

(** [getScriptSrc] (lines 200-209); [None] is Go's nil slice. *)
Definition getScriptSrc (env : Env) (scriptPath : string) : M (option string) :=
  if String.eqb scriptPath "" then ret None
  else
    emit (ReadFile scriptPath) ;;
    match ioutil_ReadFile env scriptPath with
    | Err e => log_Fatal ("Could not read script: " ++ e)
    | Val scriptSrc => ret (Some scriptSrc)
    end.

(** The identity file [sshPrivateKey] turns to. *)
Definition chosen_identity (env : Env) (f : Flags) : string :=
  if String.eqb (identityFileFlag f) "" then Getenv env "HOME" ++ "/.ssh/id_rsa"
  else identityFileFlag f.

(** The key lets [main] go on: a file named on the command line is read
    and parsed; the default file is missing, or is read and parsed. *)
Definition key_pass (env : Env) (f : Flags) : bool :=
  match ioutil_ReadFile env (chosen_identity env f) with
  | Err _ => String.eqb (identityFileFlag f) ""
  | Val key =>
      match ssh_ParsePrivateKey env key with
      | Err _ => false
      | Val _ => true
      end
  end.

End MainGo.


(* ================================================================= *)
(** ** The single-file program: [NewServerList], [load], [execute] *)

Module Part000.
Local Open Scope proc_scope.

Definition VERSION : string := "0.0.1".

(** [type ServerList []string] *)
Definition ServerList : Type := list string.

Definition NewServerList (arg : string) : ServerList * option error :=
  (Split arg comma, None).

Definition len {A} (l : list A) : Z := Z.of_nat (List.length l).

(** A buffered Go channel: its capacity, what it holds (oldest first) and
    whether it has been closed. *)
Record chan (A : Type) : Type := {
  cap : nat;
  buf : list A;
  closed : bool
}.
Arguments cap {A} c.
Arguments buf {A} c.
Arguments closed {A} c.

Definition make_chan {A} (n : nat) : chan A :=
  {| cap := n; buf := []; closed := false |}.

(** [ExecutorResponse]: [execute] reads its [Host] and [ResponseData]. *)
Record ExecutorResponse : Type := {
  Host : string;
  ResponseData : string
}.

Record ExecutorCom : Type := {
  JobChannel : chan string;
  ResponseChannel : chan ExecutorResponse
}.

(** The two executors [load] chooses from.  Their constructors are not
    among the sources: [NewCommandExecutor], which cannot fail, is the
    constructor [CommandExecutor]; [NewScriptExecutor], which can, is a
    parameter of [load]. *)
Inductive Executor : Type :=
| ScriptExecutor (script : string)
| CommandExecutor (commands : list string).

Record ExecutionConfig : Type := {
  Handler : Executor;
  NumProcs : Z;
  Servers : ServerList;             (* the field ServerList *)
  SSHPort : Z;
  SSHClientConfig : ClientConfig;
  Sudo : bool;
  Verbose : bool;
  ComChannel : ExecutorCom
}.

Record Flags : Type := {
  flagHelp : bool;
  flagUser : string;
  flagIdentityFile : string;
  flagSudo : bool;
  flagVerbose : bool;
  flagScript : string;
  flagPort : Z;
  flagProcs : Z;
  flagVersion : bool;
  flagKnownHostsFile : string;
  flagStrictHostCheck : bool;       (* set by --NoStrictHostCheck *)
  Args : list string                (* flag.Args() *)
}.

Definition defaultFlags (env : Env) (args : list string) : Flags :=
  {| flagHelp := false;
     flagUser := Getenv env "USER";
     flagIdentityFile := "";
     flagSudo := false;
     flagVerbose := false;
     flagScript := "";
     flagPort := 22;
     flagProcs := NumCPU env;
     flagVersion := false;
     flagKnownHostsFile := Getenv env "HOME" ++ "/.ssh/known_hosts";
     flagStrictHostCheck := false;
     Args := args |}.

Definition usage {A} (exitstatus : Z) (msg : list string) : M A :=
  (match msg with
   | m :: _ => emit (Stdout m)
   | [] => ret tt
   end) ;;
  emit PrintDefaults ;;
  os_Exit exitstatus.

Definition passwordPrompt : M (string * option error) :=
  emit (Stdout "Password: ") ;;
  r <- terminal_ReadPassword ;;
  emit (Stdout "") ;;
  match r with
  | Err e => ret ("", Some e)
  | Val password => ret (TrimSpace password, None)
  end.

Definition passwordCallback (password : string) : M (string * option error) :=
  ret (password, None).

(** The signer, or [None] for Go's [nil]. *)
Definition getPrivateKey (env : Env) (identityFile : string) (failOnErr : bool)
  : M (option Signer) :=
  emit (ReadFile identityFile) ;;
  match ioutil_ReadFile env identityFile with
  | Err e =>
      if failOnErr then log_Fatal ("Could not read Identity File: " ++ e)
      else ret None
  | Val key =>
      match ssh_ParsePrivateKey env key with
      | Err e => log_Fatal ("Could not parse private key: " ++ e)
      | Val signer => ret (Some signer)
      end
  end.

(** Neither a script nor command tokens are given. *)
Definition no_workload (f : Flags) : bool :=
  String.eqb (flagScript f) "" && match tl (Args f) with [] => true | _ => false end.

(** The flags let [load] go past its usage exits of lines 135-153. *)
Definition flags_pass (f : Flags) : bool :=
  negb (flagHelp f) && negb (flagVersion f) && negb (String.eqb (flagUser f) "")
  && match Args f with [] => false | _ :: _ => true end.

(** An executor can be made: the script executor is built, or there are
    command tokens. *)
Definition workload_pass
    (NewScriptExecutor : string -> ExecutorCom -> errorOr Executor) (f : Flags) : bool :=
  if negb (String.eqb (flagScript f) "") then
    match NewScriptExecutor (flagScript f)
            {| JobChannel := make_chan 100; ResponseChannel := make_chan 100 |} with
    | Val _ => true
    | Err _ => false
    end
  else match tl (Args f) with [] => false | _ :: _ => true end.

(** [load], for any constructor of the script executor. *)
Definition load (NewScriptExecutor : string -> ExecutorCom -> errorOr Executor)
    (env : Env) (f : Flags) : M ExecutionConfig :=
  (if flagHelp f then usage 0 [] else ret tt) ;;
  (if flagVersion f then emit (Stdout VERSION) ;; os_Exit 0 else ret tt) ;;
  (if String.eqb (flagUser f) "" then usage 1 ["Username required."] else ret tt) ;;
  servers <-
    (match Args f with
     | [] => usage 2 ["At least one argument (host) is required."]
     | arg0 :: _ =>
         match NewServerList arg0 with
         | (_, Some _) => usage 3 ["Server list could not be parsed."]
         | (servers, None) => ret servers
         end
     end) ;;
  let executorComChannel :=
    {| JobChannel := make_chan 100; ResponseChannel := make_chan 100 |} in
  executor <-
    (if negb (String.eqb (flagScript f) "") then
       match NewScriptExecutor (flagScript f) executorComChannel with
       | Err e => log_Fatal ("Could not create ScriptExecutor: " ++ e)
       | Val executor => ret executor
       end
     else match tl (Args f) with
          | _ :: _ => ret (CommandExecutor (tl (Args f)))
          | [] => usage 3 ["No script or commands provided."]
          end) ;;
  hostKeyCallback <-
    (if flagStrictHostCheck f then ret InsecureIgnoreHostKey
     else match knownhosts_New env (Sprintf0 env (flagKnownHostsFile f)) with
          | Some e => log_Fatal ("Could not parse known_hosts file: " ++ e)
          | None => ret (KnownHosts (Sprintf0 env (flagKnownHostsFile f)))
          end) ;;
  auth <-
    (if negb (String.eqb (flagIdentityFile f) "") then
       signer <- getPrivateKey env (flagIdentityFile f) true ;;
       ret [PublicKeys signer]
     else
       signer <- getPrivateKey env (Getenv env "HOME" ++ "/.ssh/id_rsa") false ;;
       match signer with
       | Some _ => ret [PublicKeys signer]
       | None =>
           r <- passwordPrompt ;;
           match r with
           | (_, Some e) => log_Fatal ("Could not read password: " ++ e)
           | (password, None) => ret [PasswordCallback (passwordCallback password)]
           end
       end) ;;
  ret {| Handler := executor;
         NumProcs := flagProcs f;
         Servers := servers;
         SSHPort := flagPort f;
         SSHClientConfig :=
           {| User := flagUser f; Auth := auth; HostKey := hostKeyCallback; Timeout := 20 |};
         Sudo := flagSudo f;
         Verbose := flagVerbose f;
         ComChannel := executorComChannel |}.

(** *** [execute]: the pool, as interleaved steps of its goroutines *)

(** The number of workers [execute] starts (lines 67-70). *)
Definition threads (c : ExecutionConfig) : Z :=
  if len (Servers c) <? NumProcs c then len (Servers c) else NumProcs c.

(** A send on a buffered channel: possible while the buffer has room.
    (The capacities here are 100: the rendezvous of a channel of capacity
    0 is not modelled.) *)
Definition send {A} (x : A) (c : chan A) : option (chan A) :=
  if closed c then None
  else if (List.length (buf c) <? cap c)%nat
       then Some {| cap := cap c; buf := buf c ++ [x]; closed := closed c |}
       else None.

(** A receive: the oldest value of the buffer, when there is one. *)
Definition recv {A} (c : chan A) : option (A * chan A) :=
  match buf c with
  | [] => None
  | x :: rest => Some (x, {| cap := cap c; buf := rest; closed := closed c |})
  end.

Definition close {A} (c : chan A) : chan A :=
  {| cap := cap c; buf := buf c; closed := true |}.

(** A worker goroutine is waiting for a job, working on a host, or has
    left its loop. *)
Inductive worker : Type :=
| Idle
| Busy (host : string)
| Gone.

(** The state of [execute] once its goroutines are started. *)
Record pool : Type := {
  pending : list string;                  (* the producer's range loop: hosts not yet sent *)
  jobs : chan string;                     (* Config.ComChannel.JobChannel *)
  workers : list worker;
  responses : chan ExecutorResponse;      (* Config.ComChannel.ResponseChannel *)
  results : list ExecutorResponse;
  i : nat                                 (* the collector's loop counter *)
}.

(** [execute] up to the collector loop.  [wg.Add] panics on a negative
    count: then nothing is started. *)
Definition start (c : ExecutionConfig) : option pool :=
  if threads c <? 0 then None
  else Some {| pending := Servers c;
               jobs := JobChannel (ComChannel c);
               workers := repeat Idle (Z.to_nat (threads c));
               responses := ResponseChannel (ComChannel c);
               results := [];
               i := 0 |}.

Fixpoint set_worker (k : nat) (w : worker) (ws : list worker) : list worker :=
  match ws, k with
  | [], _ => []
  | _ :: rest, O => w :: rest
  | x :: rest, S k' => x :: set_worker k' w rest
  end.

(** One step of one goroutine. *)
Inductive action : Type :=
| Send                (* producer: JobChannel <- host *)
| CloseJobs           (* producer: close(JobChannel) *)
| Receive (w : nat)   (* worker w takes a host from the job channel *)
| Leave (w : nat)     (* worker w finds the job channel closed and empty *)
| Respond (w : nat)   (* worker w pushes the response of its host *)
| Collect.            (* collector: result := <-ResponseChannel *)

Section Pool.

(** What the remote side answers for a host. *)
Variable remote : string -> string.
(** [len(Config.ServerList)], the bound of the collector loop. *)
Variable n : nat.

(** Modelled from the spec: the worker loop [Config.Handler.Run] is not
    among the sources.  "Each worker loops: dequeue a host (exit the loop
    when the queue is closed and empty), Connector.Connect,
    Workload.Execute, build ClientResponse, push to a bounded response
    queue, continue."  These are the steps [Receive], [Leave] and
    [Respond]; the producer ([Send], [CloseJobs]) and the collector
    ([Collect]) are those of [execute]. *)
Definition step (a : action) (s : pool) : option pool :=
  match a with
  | Send =>
      match pending s with
      | [] => None
      | host :: rest =>
          match send host (jobs s) with
          | None => None
          | Some js =>
              Some {| pending := rest; jobs := js; workers := workers s;
                      responses := responses s; results := results s; i := i s |}
          end
      end
  | CloseJobs =>
      match pending s with
      | _ :: _ => None
      | [] =>
          if closed (jobs s) then None
          else Some {| pending := []; jobs := close (jobs s); workers := workers s;
                       responses := responses s; results := results s; i := i s |}
      end
  | Receive w =>
      match nth_error (workers s) w, recv (jobs s) with
      | Some Idle, Some (host, js) =>
          Some {| pending := pending s; jobs := js;
                  workers := set_worker w (Busy host) (workers s);
                  responses := responses s; results := results s; i := i s |}
      | _, _ => None
      end
  | Leave w =>
      match nth_error (workers s) w, buf (jobs s) with
      | Some Idle, [] =>
          if closed (jobs s)
          then Some {| pending := pending s; jobs := jobs s;
                       workers := set_worker w Gone (workers s);
                       responses := responses s; results := results s; i := i s |}
          else None
      | _, _ => None
      end
  | Respond w =>
      match nth_error (workers s) w with
      | Some (Busy host) =>
          match send {| Host := host; ResponseData := remote host |} (responses s) with
          | None => None
          | Some rs =>
              Some {| pending := pending s; jobs := jobs s;
                      workers := set_worker w Idle (workers s);
                      responses := rs; results := results s; i := i s |}
          end
      | _ => None
      end
  | Collect =>
      if (i s <? n)%nat then
        match recv (responses s) with
        | None => None
        | Some (result, rs) =>
            Some {| pending := pending s; jobs := jobs s; workers := workers s;
                    responses := rs; results := results s ++ [result]; i := S (i s) |}
        end
      else None
  end.

(** A schedule: the steps taken, in order. *)
Fixpoint run (acts : list action) (s : pool) : option pool :=
  match acts with
  | [] => Some s
  | a :: rest =>
      match step a s with
      | Some s' => run rest s'
      | None => None
      end
  end.

(** The collector loop has ended: [execute] goes on to print. *)
Definition collected (s : pool) : bool := (i s =? n)%nat.

(** The actions a state with [k] workers can try. *)
Definition candidates (k : nat) : list action :=
  Send :: CloseJobs :: Collect ::
  flat_map (fun w => [Receive w; Leave w; Respond w]) (seq 0 k).

(** No goroutine can move. *)
Definition stuck (s : pool) : bool :=
  forallb (fun a => match step a s with None => true | Some _ => false end)
          (candidates (List.length (workers s))).

End Pool.

(** The hosts the workers are busy with. *)
Definition in_flight (ws : list worker) : list string :=
  flat_map (fun w => match w with Busy host => [host] | _ => [] end) ws.

Definition is_Gone (w : worker) : bool :=
  match w with Gone => true | _ => false end.

Definition is_Receive (a : action) : bool :=
  match a with Receive _ => true | _ => false end.
Definition is_Respond (a : action) : bool :=
  match a with Respond _ => true | _ => false end.
Definition is_Collect (a : action) : bool :=
  match a with Collect => true | _ => false end.

Definition count_actions (p : action -> bool) (acts : list action) : nat :=
  List.length (filter p acts).

(** [execute] from its start: the pool after a schedule. *)
Definition execute (remote : string -> string) (c : ExecutionConfig)
    (acts : list action) : option pool :=
  match start c with
  | None => None
  | Some s => run remote (List.length (Servers c)) acts s
  end.


(** The hosts a state accounts for: collected, waiting in the response
    channel, being worked on, waiting in the job channel, not yet sent. *)
Definition accounted (s : pool) : list string :=
  map Host (results s) ++ map Host (buf (responses s)) ++ in_flight (workers s)
  ++ buf (jobs s) ++ pending s.

Definition alive (ws : list worker) : nat :=
  List.length (filter (fun w => negb (is_Gone w)) ws).

(** The number of steps a state has left at most: every step moves a host
    one stage on, closes the job channel, or ends a worker. *)
Definition steps_left (s : pool) : nat :=
  4 * List.length (pending s) + 3 * List.length (buf (jobs s))
  + 2 * List.length (in_flight (workers s)) + List.length (buf (responses s))
  + (if closed (jobs s) then 0 else 1) + alive (workers s).

(** Channels as [load] makes them: empty, open, with room for a value. *)
Definition fresh {A} (c : chan A) : bool :=
  match buf c with [] => true | _ => false end && negb (closed c) && (1 <=? cap c)%nat.

(** What holds of every state of a pool over the hosts [hosts] with [k]
    workers. *)
Record pool_inv (remote : string -> string) (hosts : list string) (k : nat)
    (s : pool) : Prop := {
  inv_hosts : Permutation hosts (accounted s);
  inv_count : List.length (results s) = i s;
  inv_bound : (i s <= List.length hosts)%nat;
  inv_workers : List.length (workers s) = k;
  inv_closed : closed (jobs s) = true -> pending s = [];
  inv_gone : existsb is_Gone (workers s) = true ->
             closed (jobs s) = true /\ buf (jobs s) = [];
  inv_open : closed (responses s) = false;
  inv_room : (1 <= cap (jobs s))%nat /\ (1 <= cap (responses s))%nat;
  inv_data : Forall (fun r => ResponseData r = remote (Host r))
                    (results s ++ buf (responses s))
}.

Definition fresh_channels (c : ExecutionConfig) : bool :=
  fresh (JobChannel (ComChannel c)) && fresh (ResponseChannel (ComChannel c)).

(** [getScriptSrc] (lines 265-274); [None] is Go's nil slice. *)
Definition getScriptSrc (env : Env) (scriptPath : string) : M (option string) :=
  if String.eqb scriptPath "" then ret None
  else
    emit (ReadFile scriptPath) ;;
    match ioutil_ReadFile env scriptPath with
    | Err e => log_Fatal ("Could not read script: " ++ e)
    | Val scriptSrc => ret (Some scriptSrc)
    end.

(** [logVerbose] (lines 30-34). *)
Definition logVerbose (c : ExecutionConfig) (msg : string) : M unit :=
  if Verbose c then emit (Stdout msg) else ret tt.

Definition ESC : ascii := Ascii.ascii_of_nat 27.
Definition LF : ascii := Ascii.ascii_of_nat 10.

Definition TERM_CYAN : string := String ESC "[0;36m".
Definition TERM_GREEN : string := String ESC "[0;32m".
Definition TERM_YELLOW : string := String ESC "[0;33m".
Definition TERM_CLEAR : string := String ESC "[0m".

(** The three pieces [execute] prints for one result (lines 96-98). *)
Definition result_lines (result : ExecutorResponse) : list string :=
  [ "Host: " ++ TERM_GREEN ++ Host result ++ TERM_CLEAR;
    ResponseData result;
    "--------------------------------" ++ String LF "" ].

(** The loop that ends [execute] (lines 95-99). *)
Fixpoint printResults (rs : list ExecutorResponse) : M unit :=
  match rs with
  | [] => ret tt
  | result :: rest =>
      emit (Stdout ("Host: " ++ TERM_GREEN ++ Host result ++ TERM_CLEAR)) ;;
      emit (Stdout (ResponseData result)) ;;
      emit (Stdout ("--------------------------------" ++ String LF "")) ;;
      printResults rest
  end.

(** The host keys are available: checking is disabled or the known-hosts
    file is loaded. *)
Definition trust_pass (env : Env) (f : Flags) : bool :=
  flagStrictHostCheck f
  || match knownhosts_New env (Sprintf0 env (flagKnownHostsFile f)) with
     | None => true
     | Some _ => false
     end.

(** A method of authentication can be made: the identity file named on
    the command line is read and parsed; or the default one is; or the
    default one cannot be read and a password is typed. *)
Definition auth_pass (env : Env) (f : Flags) (input : list (errorOr string)) : bool :=
  if negb (String.eqb (flagIdentityFile f) "") then
    match ioutil_ReadFile env (flagIdentityFile f) with
    | Err _ => false
    | Val key =>
        match ssh_ParsePrivateKey env key with Err _ => false | Val _ => true end
    end
  else
    match ioutil_ReadFile env (Getenv env "HOME" ++ "/.ssh/id_rsa") with
    | Val key =>
        match ssh_ParsePrivateKey env key with Err _ => false | Val _ => true end
    | Err _ =>
        match input with
        | Val _ :: _ => true
        | _ => false
        end
    end.

End Part000.


(* ================================================================= *)
(** ** Concrete runs *)

Module Examples.

(** What the remote side answers in the examples. *)
Definition remote0 (host : string) : string := "up at " ++ host.

(** The configuration of a run of the command [uptime] on [hosts] with
    [procs] workers configured, with channels as [load] makes them. *)
Definition poolConfig (hosts : list string) (procs : Z) : Part000.ExecutionConfig :=
  {| Part000.Handler := Part000.CommandExecutor ["uptime"];
     Part000.NumProcs := procs;
     Part000.Servers := hosts;
     Part000.SSHPort := 22;
     Part000.SSHClientConfig :=
       {| User := "operator"; Auth := []; HostKey := InsecureIgnoreHostKey; Timeout := 20 |};
     Part000.Sudo := false;
     Part000.Verbose := false;
     Part000.ComChannel :=
       {| Part000.JobChannel := Part000.make_chan 100;
          Part000.ResponseChannel := Part000.make_chan 100 |} |}.

(** Two hosts, two workers: both hosts are sent, each worker takes one,
    the second answers first, the collector receives twice. *)
Definition twoHostsSchedule : list Part000.action :=
  [Part000.Send; Part000.Send; Part000.CloseJobs;
   Part000.Receive 0; Part000.Receive 1;
   Part000.Respond 1; Part000.Respond 0;
   Part000.Collect; Part000.Collect].

(** The machine of the examples: home directory, user, agent socket; the
    agent answers or not; the files that can be read; the keys that
    parse; the known-hosts file loads or not. *)
Definition machine (agent : bool) (files : string -> errorOr string) (known : bool) : Env :=
  {| Getenv := fun name =>
       if String.eqb name "HOME" then "/home/operator"
       else if String.eqb name "USER" then "operator"
       else if String.eqb name "SSH_AUTH_SOCK" then "/tmp/agent.sock"
       else "";
     NumCPU := 4;
     ReadInConfig := None;
     net_Dial_unix := fun _ => if agent then None else Some "connect: no such file or directory";
     ioutil_ReadFile := files;
     ssh_ParsePrivateKey := fun key =>
       if String.eqb key "PRIVATE KEY" then Val (SignerOf key)
       else Err "ssh: no key found";
     knownhosts_New := fun _ =>
       if known then None else Some "open known_hosts: no such file or directory";
     Sprintf0 := fun format => format |}.

Definition no_files (path : string) : errorOr string :=
  Err "open: no such file or directory".

(** The default identity file holds a key. *)
Definition good_default_key (path : string) : errorOr string :=
  if String.eqb path "/home/operator/.ssh/id_rsa" then Val "PRIVATE KEY"
  else Err "open: no such file or directory".

(** The default identity file can be read but is not a key the parser
    accepts (a key protected by a passphrase, say). *)
Definition bad_default_key (path : string) : errorOr string :=
  if String.eqb path "/home/operator/.ssh/id_rsa" then Val "ENCRYPTED KEY"
  else Err "open: no such file or directory".

(** A package for [main]: the parser of the single-file program, and a
    pool that answers for every host. *)
Definition package : MainGo.gosshclient :=
  let answer (g : MainGo.GosshClient) : M (list MainGo.ClientResponse * option error) :=
    ret (map (fun h => {| MainGo.Host := h; MainGo.Output := remote0 h;
                          MainGo.ExecError := None |}) (MainGo.servers g), None) in
  {| MainGo.gc_NewServerList := Part000.NewServerList;
     MainGo.gc_ExecuteScript := fun g _ => answer g;
     MainGo.gc_ExecuteCommands := fun g _ => answer g;
     MainGo.gc_String := fun r => MainGo.Host r ++ ": " ++ MainGo.Output r |}.

(** A package whose parser rejects every host list. *)
Definition strict_package : MainGo.gosshclient :=
  MainGo.with_parser (fun _ => ([], Some "empty host list")) package.

(** The command line [gossh args] with the default flags. *)
Definition gossh (env : Env) (args : list string) : MainGo.Flags :=
  MainGo.defaultFlags env args.

Definition with_identity (file : string) (f : MainGo.Flags) : MainGo.Flags :=
  {| MainGo.helpFlag := MainGo.helpFlag f; MainGo.userFlag := MainGo.userFlag f;
     MainGo.identityFileFlag := file; MainGo.sudoFlag := MainGo.sudoFlag f;
     MainGo.scriptFlag := MainGo.scriptFlag f; MainGo.portFlag := MainGo.portFlag f;
     MainGo.proxyHostFlag := MainGo.proxyHostFlag f; MainGo.procsFlag := MainGo.procsFlag f;
     MainGo.versionFlag := MainGo.versionFlag f;
     MainGo.sshAgentForwardFlag := MainGo.sshAgentForwardFlag f;
     MainGo.knownHostsFileFlag := MainGo.knownHostsFileFlag f;
     MainGo.strictHostCheckFlag := MainGo.strictHostCheckFlag f;
     MainGo.Args := MainGo.Args f |}.

Definition with_help (f : MainGo.Flags) : MainGo.Flags :=
  {| MainGo.helpFlag := true; MainGo.userFlag := MainGo.userFlag f;
     MainGo.identityFileFlag := MainGo.identityFileFlag f; MainGo.sudoFlag := MainGo.sudoFlag f;
     MainGo.scriptFlag := MainGo.scriptFlag f; MainGo.portFlag := MainGo.portFlag f;
     MainGo.proxyHostFlag := MainGo.proxyHostFlag f; MainGo.procsFlag := MainGo.procsFlag f;
     MainGo.versionFlag := MainGo.versionFlag f;
     MainGo.sshAgentForwardFlag := MainGo.sshAgentForwardFlag f;
     MainGo.knownHostsFileFlag := MainGo.knownHostsFileFlag f;
     MainGo.strictHostCheckFlag := MainGo.strictHostCheckFlag f;
     MainGo.Args := MainGo.Args f |}.

Definition with_version (f : MainGo.Flags) : MainGo.Flags :=
  {| MainGo.helpFlag := MainGo.helpFlag f; MainGo.userFlag := MainGo.userFlag f;
     MainGo.identityFileFlag := MainGo.identityFileFlag f; MainGo.sudoFlag := MainGo.sudoFlag f;
     MainGo.scriptFlag := MainGo.scriptFlag f; MainGo.portFlag := MainGo.portFlag f;
     MainGo.proxyHostFlag := MainGo.proxyHostFlag f; MainGo.procsFlag := MainGo.procsFlag f;
     MainGo.versionFlag := true;
     MainGo.sshAgentForwardFlag := MainGo.sshAgentForwardFlag f;
     MainGo.knownHostsFileFlag := MainGo.knownHostsFileFlag f;
     MainGo.strictHostCheckFlag := MainGo.strictHostCheckFlag f;
     MainGo.Args := MainGo.Args f |}.

(** The command line of the single-file program, default flags. *)
Definition gossh0 (env : Env) (args : list string) : Part000.Flags :=
  Part000.defaultFlags env args.

(** The single-file program is stated for any constructor of the script
    executor; in the examples it reads nothing and always succeeds. *)
Definition scriptExecutor (path : string) (com : Part000.ExecutorCom)
  : errorOr Part000.Executor := Val (Part000.ScriptExecutor path).

(** A host list of [n + 1] hosts: [n] commas between empty names. *)
Fixpoint commas (n : nat) : string :=
  match n with
  | O => EmptyString
  | S m => String comma (commas m)
  end.

(** A package whose pool reports an error. *)
Definition failing_package : MainGo.gosshclient :=
  {| MainGo.gc_NewServerList := Part000.NewServerList;
     MainGo.gc_ExecuteScript := fun _ _ => ret ([], Some "open script: no such file or directory");
     MainGo.gc_ExecuteCommands := fun _ _ => ret ([], Some "no commands");
     MainGo.gc_String := fun r => MainGo.Host r |}.

(** Besides the default key, a file [/tmp/id] that is not a key. *)
Definition garbage_identity (path : string) : errorOr string :=
  if String.eqb path "/tmp/id" then Val "GARBAGE" else good_default_key path.

Definition with_help0 (f : Part000.Flags) : Part000.Flags :=
  {| Part000.flagHelp := true; Part000.flagUser := Part000.flagUser f;
     Part000.flagIdentityFile := Part000.flagIdentityFile f;
     Part000.flagSudo := Part000.flagSudo f; Part000.flagVerbose := Part000.flagVerbose f;
     Part000.flagScript := Part000.flagScript f; Part000.flagPort := Part000.flagPort f;
     Part000.flagProcs := Part000.flagProcs f; Part000.flagVersion := Part000.flagVersion f;
     Part000.flagKnownHostsFile := Part000.flagKnownHostsFile f;
     Part000.flagStrictHostCheck := Part000.flagStrictHostCheck f;
     Part000.Args := Part000.Args f |}.

Definition with_version0 (f : Part000.Flags) : Part000.Flags :=
  {| Part000.flagHelp := Part000.flagHelp f; Part000.flagUser := Part000.flagUser f;
     Part000.flagIdentityFile := Part000.flagIdentityFile f;
     Part000.flagSudo := Part000.flagSudo f; Part000.flagVerbose := Part000.flagVerbose f;
     Part000.flagScript := Part000.flagScript f; Part000.flagPort := Part000.flagPort f;
     Part000.flagProcs := Part000.flagProcs f; Part000.flagVersion := true;
     Part000.flagKnownHostsFile := Part000.flagKnownHostsFile f;
     Part000.flagStrictHostCheck := Part000.flagStrictHostCheck f;
     Part000.Args := Part000.Args f |}.

End Examples.

(* ================================================================= *)
(** * Part II: properties *)

(** ** Facts about the library model *)

Lemma Split_nonempty (s : string) (sep : ascii) : Split s sep <> [].
Proof.
  induction s as [|c rest IH]; simpl; [discriminate|].
  destruct (Ascii.eqb c sep); [discriminate|].
  destruct (Split rest sep); [contradiction | discriminate].
Qed.

Lemma Split_length (s : string) (sep : ascii) :
  List.length (Split s sep) = S (Count s sep).
Proof.
  induction s as [|c rest IH]; simpl; [reflexivity|].
  destruct (Ascii.eqb c sep); simpl.
  - now rewrite IH.
  - destruct (Split rest sep) eqn:E; simpl in *; [discriminate | exact IH].
Qed.

Lemma Join_cons (x : string) (l : list string) (sep : ascii) :
  l <> [] -> Join (x :: l) sep = x ++ String sep (Join l sep).
Proof. destruct l; [contradiction | reflexivity]. Qed.

Lemma Join_Split (s : string) (sep : ascii) : Join (Split s sep) sep = s.
Proof.
  induction s as [|c rest IH]; simpl; [reflexivity|].
  pose proof (Split_nonempty rest sep) as NE.
  destruct (Ascii.eqb c sep) eqn:E.
  - apply Ascii.eqb_eq in E; subst c.
    rewrite Join_cons by assumption. cbn [append]. f_equal. exact IH.
  - destruct (Split rest sep) as [|p ps] eqn:S; [contradiction|].
    destruct ps as [|q qs].
    + simpl in *. now rewrite IH.
    + rewrite Join_cons by discriminate.
      rewrite Join_cons in IH by discriminate.
      cbn [append]. f_equal. exact IH.
Qed.

Lemma Split_no_sep (s : string) (sep : ascii) :
  Forall (fun piece => Contains piece sep = false) (Split s sep).
Proof.
  induction s as [|c rest IH]; simpl.
  - constructor; [reflexivity | constructor].
  - destruct (Ascii.eqb c sep) eqn:E.
    + constructor; [reflexivity | exact IH].
    + destruct (Split rest sep) as [|p ps]; [repeat constructor; simpl; now rewrite E|].
      inversion IH; subst. constructor; [simpl; now rewrite E | assumption].
Qed.

Lemma Split_without_sep (s : string) (sep : ascii) :
  Contains s sep = false -> Split s sep = [s].
Proof.
  induction s as [|c rest IH]; simpl; [reflexivity|].
  intros H. apply orb_false_iff in H as [H1 H2].
  rewrite H1, (IH H2). reflexivity.
Qed.


Lemma TrimLeftSpace_start (s : string) : startsWithSpace (TrimLeftSpace s) = false.
Proof.
  induction s as [|c rest IH]; simpl; [reflexivity|].
  destruct (isSpace c) eqn:C; [exact IH|].
  unfold startsWithSpace; simpl. exact C.
Qed.


Lemma TrimRightSpace_end (s : string) : endsInSpace (TrimRightSpace s) = false.
Proof.
  unfold endsInSpace.
  induction s as [|c rest IH]; simpl; [reflexivity|].
  destruct (TrimRightSpace rest) as [|d kept] eqn:T.
  - destruct (isSpace c) eqn:C; simpl; [reflexivity | now rewrite C].
  - exact IH.
Qed.

Lemma TrimRightSpace_first (s : string) :
  startsWithSpace s = false -> startsWithSpace (TrimRightSpace s) = false.
Proof.
  destruct s as [|c rest]; simpl; [reflexivity|].
  unfold startsWithSpace; simpl. intros C.
  destruct (TrimRightSpace rest); [rewrite C|]; simpl; auto.
Qed.


Lemma TrimSpace_ends (s : string) :
  endsInSpace (TrimSpace s) = false /\ startsWithSpace (TrimSpace s) = false.
Proof.
  unfold TrimSpace. split.
  - apply TrimRightSpace_end.
  - apply TrimRightSpace_first, TrimLeftSpace_start.
Qed.

(* ================================================================= *)
(** ** The host list *)

Import Part000.

Lemma NewServerList_eq (arg : string) :
  NewServerList arg = (Split arg comma, None).
Proof. reflexivity. Qed.

(** What the claim asks of the parser on its three examples, next to what
    the parser returns: entries keep their white space, and the empty
    input is parsed into one empty host. *)
Lemma C1_parser_keeps_spaces_and_accepts_empty :
  NewServerList " a , b " = ([" a "; " b "], None)
  /\ [" a "; " b "] <> ["a"; "b"]
  /\ map TrimSpace [" a "; " b "] = ["a"; "b"]
  /\ NewServerList "" = ([""], None)
  /\ NewServerList "   " = (["   "], None).
Proof.
  repeat split; try reflexivity.
  intro H. inversion H.
Qed.

(** C1 (as the code has it): the parser splits its input at every comma
    and does nothing else.  The entries, joined by commas, give back the
    input (so the order and every byte, white space included, are kept);
    no entry holds a comma; there is one entry more than there are commas,
    hence at least one; and no input is rejected.  On the three examples:
    "a,b,c" gives a, b, c; " a , b " gives " a " and " b "; "" gives one
    empty entry. *)
Theorem C1_NewServerList_splits_at_commas_only :
  forall arg : string,
    let servers := fst (NewServerList arg) in
    snd (NewServerList arg) = None
    /\ Join servers comma = arg
    /\ Forall (fun entry => Contains entry comma = false) servers
    /\ List.length servers = S (Count arg comma)
    /\ (1 <= List.length servers)%nat
    /\ NewServerList "a,b,c" = (["a"; "b"; "c"], None)
    /\ NewServerList " a , b " = ([" a "; " b "], None)
    /\ NewServerList "" = ([""], None).
Proof.
  intros arg servers. subst servers. rewrite NewServerList_eq. cbn [fst snd].
  split; [reflexivity|].
  split; [apply Join_Split|].
  split; [apply Split_no_sep|].
  split; [apply Split_length|].
  split; [rewrite Split_length; lia|].
  repeat split.
Qed.

(* ================================================================= *)
(** ** The number of workers *)

(** [execute] never starts more workers than there are hosts: its count is
    the smaller of the configured count and the number of hosts, for
    every configured count. *)
Lemma threads_min (c : ExecutionConfig) :
  threads c = Z.min (NumProcs c) (len (Servers c)).
Proof.
  unfold threads.
  destruct (Z.ltb_spec (len (Servers c)) (NumProcs c)); lia.
Qed.

(** The single-file program gives the setting -1 no meaning of its own:
    handed to [execute] as it is, it is below zero and [wg.Add] panics. *)
Lemma threads_of_minus_one_unclamped (c : ExecutionConfig) :
  NumProcs c = -1 -> threads c = -1 /\ start c = None.
Proof.
  intros H. unfold start. rewrite threads_min, H.
  assert (0 <= len (Servers c)) by (unfold len; lia).
  replace (Z.min (-1) (len (Servers c))) with (-1) by lia.
  split; reflexivity.
Qed.


(* ================================================================= *)
(** ** The pool of [execute] *)

Open Scope list_scope.

Lemma set_worker_split (ws : list worker) (k : nat) (w : worker) :
  nth_error ws k = Some w ->
  exists l1 l2, ws = l1 ++ w :: l2 /\ forall w', set_worker k w' ws = l1 ++ w' :: l2.
Proof.
  revert k. induction ws as [|x ws IH]; intros [|k] H; simpl in H; try discriminate.
  - injection H as ->. exists [], ws. split; reflexivity.
  - destruct (IH k H) as (l1 & l2 & E & F).
    exists (x :: l1), l2. split; [now rewrite E|].
    intros w'. simpl. now rewrite F.
Qed.

Lemma in_flight_app (l1 l2 : list worker) :
  in_flight (l1 ++ l2) = in_flight l1 ++ in_flight l2.
Proof. unfold in_flight. apply flat_map_app. Qed.

Lemma alive_app (l1 l2 : list worker) : alive (l1 ++ l2) = (alive l1 + alive l2)%nat.
Proof. unfold alive. now rewrite filter_app, length_app. Qed.

Lemma existsb_Gone_app (l1 l2 : list worker) :
  existsb is_Gone (l1 ++ l2) = existsb is_Gone l1 || existsb is_Gone l2.
Proof. apply existsb_app. Qed.

Lemma send_spec {A} (x : A) (c c' : chan A) :
  send x c = Some c' ->
  closed c = false /\ (List.length (buf c) < cap c)%nat
  /\ c' = {| cap := cap c; buf := buf c ++ [x]; closed := false |}.
Proof.
  unfold send. destruct (closed c) eqn:C; [discriminate|].
  destruct (Nat.ltb_spec (List.length (buf c)) (cap c)); [|discriminate].
  intros E; injection E as <-. auto.
Qed.

Lemma recv_spec {A} (x : A) (c c' : chan A) :
  recv c = Some (x, c') ->
  exists rest, buf c = x :: rest
               /\ c' = {| cap := cap c; buf := rest; closed := closed c |}.
Proof.
  unfold recv. destruct (buf c) as [|y rest]; [discriminate|].
  intros E; injection E as <- <-. eauto.
Qed.

Lemma send_room {A} (x : A) (c : chan A) :
  closed c = false -> buf c = [] -> (1 <= cap c)%nat -> send x c <> None.
Proof.
  intros C B R. unfold send. rewrite C, B. simpl.
  destruct (Nat.ltb_spec 0 (cap c)); [discriminate | lia].
Qed.

Section PoolFacts.

Variable remote : string -> string.
Variable hosts : list string.
Variable k : nat.

Let n := List.length hosts.

Ltac steps :=
  unfold steps_left; cbn [pending jobs workers responses results i buf closed cap close].

Ltac projs :=
  cbn [pending jobs workers responses results i buf closed cap close].

Ltac fields :=
  constructor; projs; try assumption; try (split; assumption).

(** Every step keeps the invariant and uses up one of the steps left. *)
Lemma step_inv (a : action) (s s' : pool) :
  pool_inv remote hosts k s ->
  step remote n a s = Some s' ->
  pool_inv remote hosts k s' /\ steps_left s = S (steps_left s').
Proof.
  intros [Hh Hc Hb Hw Hcl Hg Ho [Hr1 Hr2] Hd] St.
  unfold accounted in Hh.
  destruct a as [| |w|w|w|]; cbn [step] in St.
  - (* Send *)
    destruct (pending s) as [|host rest] eqn:P; [discriminate|].
    destruct (send host (jobs s)) as [js|] eqn:Sd; [|discriminate].
    injection St as <-.
    apply send_spec in Sd as (C & L & ->).
    split.
    + fields.
      * unfold accounted; projs. rewrite Hh, <- !app_assoc. reflexivity.
      * discriminate.
      * intros G. destruct (Hg G) as [C' _]. congruence.
    + steps. rewrite P, C, length_app. cbn [List.length]. lia.
  - (* CloseJobs *)
    destruct (pending s) as [|host rest] eqn:P; [|discriminate].
    destruct (closed (jobs s)) eqn:C; [discriminate|].
    injection St as <-.
    split.
    + fields.
      intros G. destruct (Hg G) as [C' _]. congruence.
    + steps. rewrite P, C. cbn [List.length]. lia.
  - (* Receive *)
    destruct (nth_error (workers s) w) as [[|host0|]|] eqn:N; try discriminate.
    destruct (recv (jobs s)) as [[host js]|] eqn:R; [|discriminate].
    injection St as <-.
    apply recv_spec in R as (rest & B & ->).
    destruct (set_worker_split _ _ _ N) as (l1 & l2 & E & F).
    split.
    + fields.
      * unfold accounted; projs. rewrite Hh, B, F, E.
        rewrite !in_flight_app. cbn [in_flight flat_map app].
        rewrite <- !app_assoc. do 3 apply Permutation_app_head.
        cbn [app]. symmetry. apply Permutation_middle.
      * rewrite F, <- Hw, E, !length_app. reflexivity.
      * rewrite F. intros G. rewrite existsb_Gone_app in G. cbn in G.
        assert (G' : existsb is_Gone (workers s) = true).
        { rewrite E, existsb_Gone_app. cbn. exact G. }
        destruct (Hg G') as [_ B']. rewrite B in B'. discriminate.
    + steps. rewrite B, F, E.
      rewrite !in_flight_app, !alive_app, !length_app. cbn. lia.
  - (* Leave *)
    destruct (nth_error (workers s) w) as [[|host0|]|] eqn:N; try discriminate.
    destruct (buf (jobs s)) as [|x xs] eqn:B; [|discriminate].
    destruct (closed (jobs s)) eqn:C; [|discriminate].
    injection St as <-.
    destruct (set_worker_split _ _ _ N) as (l1 & l2 & E & F).
    split.
    + fields.
      * unfold accounted; projs. rewrite Hh, B, F, E.
        rewrite !in_flight_app. reflexivity.
      * rewrite F, <- Hw, E, !length_app. reflexivity.
      * intros _. apply Hcl. reflexivity.
    + steps. rewrite B, C, F, E.
      rewrite !in_flight_app, !alive_app, !length_app. cbn. lia.
  - (* Respond *)
    destruct (nth_error (workers s) w) as [[|host|]|] eqn:N; try discriminate.
    destruct (send _ (responses s)) as [rs|] eqn:Sd; [|discriminate].
    injection St as <-.
    apply send_spec in Sd as (C & L & ->).
    destruct (set_worker_split _ _ _ N) as (l1 & l2 & E & F).
    split.
    + fields.
      * unfold accounted; projs. rewrite Hh, F, E.
        rewrite !in_flight_app, map_app. cbn [in_flight flat_map app map Host].
        rewrite <- !app_assoc. apply Permutation_app_head. apply Permutation_app_head.
        cbn [app]. symmetry. apply Permutation_middle.
      * rewrite F, <- Hw, E, !length_app. reflexivity.
      * rewrite F. intros G. apply Hg. rewrite E, existsb_Gone_app in *. exact G.
      * rewrite app_assoc. apply Forall_app. split; [assumption|].
        constructor; [reflexivity | constructor].
    + steps. rewrite F, E.
      rewrite !in_flight_app, !alive_app, !length_app. cbn. lia.
  - (* Collect *)
    destruct (Nat.ltb_spec (i s) n); [|discriminate].
    destruct (recv (responses s)) as [[result rs]|] eqn:R; [|discriminate].
    injection St as <-.
    apply recv_spec in R as (rest & B & ->).
    split.
    + fields.
      * unfold accounted; projs. rewrite Hh, B, map_app. cbn [map app].
        rewrite <- !app_assoc. reflexivity.
      * rewrite length_app. cbn. lia.
      * rewrite B in Hd. rewrite <- app_assoc. exact Hd.
    + steps. rewrite B. cbn [List.length]. lia.
Qed.

Lemma run_app (acts more : list action) (s : pool) :
  run remote n (acts ++ more) s
  = match run remote n acts s with
    | Some s' => run remote n more s'
    | None => None
    end.
Proof.
  revert s. induction acts as [|a acts IH]; intros s; cbn [run app]; [reflexivity|].
  destruct (step remote n a s); [apply IH | reflexivity].
Qed.

(** Every schedule keeps the invariant, and is as long as the steps it
    has used up. *)
Lemma run_inv (acts : list action) (s s' : pool) :
  pool_inv remote hosts k s ->
  run remote n acts s = Some s' ->
  pool_inv remote hosts k s'
  /\ steps_left s = (List.length acts + steps_left s')%nat.
Proof.
  revert s. induction acts as [|a acts IH]; intros s I R; cbn [run] in R.
  - injection R as <-. split; [assumption | reflexivity].
  - destruct (step remote n a s) as [s1|] eqn:St; [|discriminate].
    destruct (step_inv _ _ _ I St) as [I1 M1].
    destruct (IH _ I1 R) as [I' M']. split; [assumption|].
    cbn [List.length]. lia.
Qed.

(** One response is pushed for every host a worker has taken and is no
    longer busy with; the collector's counter counts its receives. *)
Lemma run_counts (acts : list action) (s s' : pool) :
  run remote n acts s = Some s' ->
  (count_actions is_Respond acts + List.length (in_flight (workers s'))
   = count_actions is_Receive acts + List.length (in_flight (workers s)))%nat
  /\ i s' = (i s + count_actions is_Collect acts)%nat.
Proof.
  unfold count_actions.
  revert s. induction acts as [|a acts IH]; intros s R; cbn [run] in R.
  - injection R as <-. cbn [filter List.length]. split; lia.
  - destruct (step remote n a s) as [s1|] eqn:St; [|discriminate].
    destruct (IH _ R) as [IH1 IH2].
    destruct a as [| |w|w|w|]; cbn [step] in St; cbn [filter is_Respond is_Receive is_Collect].
    + destruct (pending s); [discriminate|].
      destruct (send _ (jobs s)); [|discriminate].
      injection St as <-. cbn [workers i] in *. split; lia.
    + destruct (pending s); [|discriminate].
      destruct (closed (jobs s)); [discriminate|].
      injection St as <-. cbn [workers i] in *. split; lia.
    + destruct (nth_error (workers s) w) as [[|host0|]|] eqn:N; try discriminate.
      destruct (recv (jobs s)) as [[host js]|]; [|discriminate].
      injection St as <-.
      destruct (set_worker_split _ _ _ N) as (l1 & l2 & E & F).
      cbn [workers i] in *. rewrite F in IH1. rewrite E.
      rewrite !in_flight_app, !length_app in *.
      cbn [in_flight flat_map List.length app] in *. split; lia.
    + destruct (nth_error (workers s) w) as [[|host0|]|] eqn:N; try discriminate.
      destruct (buf (jobs s)); [|discriminate].
      destruct (closed (jobs s)); [|discriminate].
      injection St as <-.
      destruct (set_worker_split _ _ _ N) as (l1 & l2 & E & F).
      cbn [workers i] in *. rewrite F in IH1. rewrite E.
      rewrite !in_flight_app, !length_app in *.
      cbn [in_flight flat_map List.length app] in *. split; lia.
    + destruct (nth_error (workers s) w) as [[|host|]|] eqn:N; try discriminate.
      destruct (send _ (responses s)); [|discriminate].
      injection St as <-.
      destruct (set_worker_split _ _ _ N) as (l1 & l2 & E & F).
      cbn [workers i] in *. rewrite F in IH1. rewrite E.
      rewrite !in_flight_app, !length_app in *.
      cbn [in_flight flat_map List.length app] in *. split; lia.
    + destruct (i s <? n)%nat; [|discriminate].
      destruct (recv (responses s)) as [[result rs]|]; [|discriminate].
      injection St as <-. cbn [workers i List.length] in *. split; lia.
Qed.

(** When the collector loop has ended, every host of the list has been
    answered: the results are as many as the hosts and their hosts are
    the hosts of the list, each as often as it is listed. *)
Lemma collected_all (s : pool) :
  pool_inv remote hosts k s ->
  collected n s = true ->
  List.length (results s) = n
  /\ Permutation (map Host (results s)) hosts
  /\ Forall (fun r => ResponseData r = remote (Host r)) (results s).
Proof.
  intros I C. unfold collected in C. apply Nat.eqb_eq in C.
  pose proof (inv_hosts _ _ _ _ I) as Hh.
  pose proof (inv_count _ _ _ _ I) as Hc.
  pose proof (inv_data _ _ _ _ I) as Hd.
  assert (L := Permutation_length Hh).
  unfold accounted in Hh, L. rewrite !length_app, length_map in L.
  fold n in L.
  assert (E : map Host (buf (responses s)) ++ in_flight (workers s)
              ++ buf (jobs s) ++ pending s = []).
  { apply length_zero_iff_nil. rewrite !length_app. lia. }
  rewrite E, app_nil_r in Hh.
  split; [lia|]. split; [now symmetry|].
  apply Forall_app in Hd. tauto.
Qed.

Lemma in_candidates (w : nat) (a : action) :
  (w < k)%nat -> a = Receive w \/ a = Respond w -> In a (candidates k).
Proof.
  intros L H. unfold candidates. do 3 right.
  apply in_flat_map. exists w. split; [apply in_seq; lia|].
  destruct H as [-> | ->]; cbn; auto.
Qed.

Lemma no_Busy_in_flight (ws : list worker) :
  (forall w host, nth_error ws w <> Some (Busy host)) -> in_flight ws = [].
Proof.
  induction ws as [|x ws IH]; intros H; [reflexivity|].
  cbn [in_flight flat_map]. destruct x as [|host|].
  - apply IH. intros w host. apply (H (S w)).
  - exfalso. apply (H 0%nat host). reflexivity.
  - apply IH. intros w host. apply (H (S w)).
Qed.

(** With at least one worker the pool cannot come to a halt before the
    collector has received all its responses. *)
Lemma stuck_collected (s : pool) :
  (1 <= k)%nat ->
  pool_inv remote hosts k s ->
  stuck remote n s = true ->
  collected n s = true.
Proof.
  intros K I St.
  destruct I as [Hh Hc Hb Hw Hcl Hg Ho [Hr1 Hr2] Hd].
  unfold stuck in St. rewrite Hw, forallb_forall in St.
  assert (No : forall a, In a (candidates k) -> step remote n a s = None).
  { intros a A. specialize (St a A). destruct (step remote n a s); [discriminate | reflexivity]. }
  clear St. unfold collected.
  destruct (Nat.eqb_spec (i s) n) as [|NE]; [reflexivity | exfalso].
  assert (Lt : (i s < n)%nat) by (subst n; lia).
  (* the response channel is empty: the collector would take from it *)
  assert (R : buf (responses s) = []).
  { assert (C := No Collect). cbn [step] in C.
    apply Nat.ltb_lt in Lt. rewrite Lt in C. unfold recv in C.
    destruct (buf (responses s)); [reflexivity|].
    discriminate C. cbn. auto. }
  (* no worker is busy: it would push its response *)
  assert (B : in_flight (workers s) = []).
  { apply no_Busy_in_flight. intros w host N.
    assert (W : (w < k)%nat) by (rewrite <- Hw; apply nth_error_Some; congruence).
    assert (C := No (Respond w) (in_candidates w _ W (or_intror eq_refl))).
    cbn [step] in C. rewrite N in C.
    destruct (send {| Host := host; ResponseData := remote host |} (responses s)) eqn:S;
      [discriminate|].
    now apply send_room in S. }
  (* the job channel is empty: an idle worker would take from it *)
  assert (J : buf (jobs s) = []).
  { destruct (buf (jobs s)) as [|host rest] eqn:J; [reflexivity | exfalso].
    destruct (workers s) as [|w0 ws] eqn:W; [cbn in Hw; lia|].
    assert (K0 : (0 < k)%nat) by lia.
    assert (C := No (Receive 0) (in_candidates 0 _ K0 (or_introl eq_refl))).
    cbn [step] in C. rewrite W in C. cbn [nth_error] in C.
    unfold recv in C. rewrite J in C.
    destruct w0 as [|h|].
    - discriminate.
    - cbn in B. discriminate.
    - destruct Hg as [_ E]; [reflexivity | discriminate]. }
  (* nothing is left to send: the producer would send it *)
  assert (P : pending s = []).
  { destruct (pending s) as [|host rest] eqn:P; [reflexivity | exfalso].
    assert (C := No Send). cbn [step] in C. rewrite P in C.
    destruct (send host (jobs s)) eqn:S; [discriminate C; cbn; auto|].
    destruct (closed (jobs s)) eqn:Cl.
    - specialize (Hcl eq_refl). discriminate.
    - now apply send_room in S. }
  apply Permutation_length in Hh. unfold accounted in Hh.
  rewrite R, B, J, P in Hh. cbn in Hh. rewrite app_nil_r, length_map in Hh.
  subst n. lia.
Qed.

(** From every state the pool can go on until the collector has received
    all its responses. *)
Lemma run_to_end (s : pool) :
  (1 <= k)%nat ->
  pool_inv remote hosts k s ->
  exists more s', run remote n more s = Some s' /\ collected n s' = true.
Proof.
  intros K.
  remember (steps_left s) as m eqn:M.
  revert s M. induction m as [m IH] using lt_wf_ind. intros s M I.
  destruct (collected n s) eqn:C.
  - exists [], s. split; [reflexivity | assumption].
  - destruct (stuck remote n s) eqn:St.
    + rewrite (stuck_collected s K I St) in C. discriminate.
    + unfold stuck in St.
      assert (E : exists a, step remote n a s <> None).
      { destruct (forallb_forall
                    (fun a => match step remote n a s with None => true | Some _ => false end)
                    (candidates (List.length (workers s)))) as [_ F].
        destruct (List.existsb
                    (fun a => match step remote n a s with None => false | Some _ => true end)
                    (candidates (List.length (workers s)))) eqn:X.
        - apply existsb_exists in X as (a & _ & A). exists a.
          destruct (step remote n a s); [discriminate | discriminate].
        - rewrite F in St; [discriminate|].
          intros a A. destruct (step remote n a s) eqn:Sa; [|reflexivity].
          assert (Y : existsb
                        (fun a => match step remote n a s with None => false | Some _ => true end)
                        (candidates (List.length (workers s))) = true).
          { apply existsb_exists. exists a. rewrite Sa. auto. }
          congruence. }
      destruct E as [a A].
      destruct (step remote n a s) as [s1|] eqn:Sa; [|contradiction].
      destruct (step_inv _ _ _ I Sa) as [I1 M1].
      destruct (IH (steps_left s1)) with (s := s1) as (more & s' & R & C');
        [lia | reflexivity | assumption |].
      exists (a :: more), s'. cbn [run]. rewrite Sa. auto.
Qed.

(** [stuck] is what it says: no step of any goroutine is possible. *)
Lemma stuck_no_step (s : pool) :
  stuck remote n s = true -> forall a, step remote n a s = None.
Proof.
  unfold stuck. rewrite forallb_forall. intros St a.
  assert (Try : In a (candidates (List.length (workers s))) -> step remote n a s = None).
  { intros A. specialize (St a A). destruct (step remote n a s); [discriminate | reflexivity]. }
  assert (Out : forall w, (List.length (workers s) <= w)%nat -> nth_error (workers s) w = None)
    by (intros w; apply nth_error_None).
  unfold candidates in Try.
  destruct a as [| |w|w|w|]; try (apply Try; cbn; tauto);
    destruct (Nat.lt_ge_cases w (List.length (workers s))) as [L | G];
    try (apply Try; do 3 right; apply in_flat_map; exists w;
         split; [apply in_seq; lia | cbn; tauto]);
    cbn [step]; rewrite (Out w G); reflexivity.
Qed.

(** Without a worker nothing is ever collected. *)
Lemma no_worker_no_result (acts : list action) (s s' : pool) :
  workers s = [] -> buf (responses s) = [] -> results s = [] ->
  run remote n acts s = Some s' ->
  workers s' = [] /\ buf (responses s') = [] /\ results s' = [].
Proof.
  revert s. induction acts as [|a acts IH]; intros s W B R Run; cbn [run] in Run.
  - injection Run as <-. auto.
  - destruct (step remote n a s) as [s1|] eqn:St; [|discriminate].
    apply (IH s1); try assumption;
      destruct a as [| |w|w|w|]; cbn [step] in St; rewrite ?W in St;
      try (destruct w; discriminate St);
      repeat match type of St with
        | match ?x with _ => _ end = Some _ => destruct x eqn:?; try discriminate St
        end;
      try (injection St as <-; cbn; first [assumption | reflexivity]);
      try (unfold recv in *; rewrite B in *; discriminate).
Qed.

End PoolFacts.

Lemma in_flight_repeat_Idle (m : nat) : in_flight (repeat Idle m) = [].
Proof. induction m; [reflexivity | exact IHm]. Qed.

Lemma alive_repeat_Idle (m : nat) : alive (repeat Idle m) = m.
Proof. unfold alive. induction m; cbn; [reflexivity | now rewrite IHm]. Qed.

Lemma existsb_Gone_repeat_Idle (m : nat) : existsb is_Gone (repeat Idle m) = false.
Proof. induction m; [reflexivity | exact IHm]. Qed.

Lemma fresh_spec {A} (c : chan A) :
  fresh c = true -> buf c = [] /\ closed c = false /\ (1 <= cap c)%nat.
Proof.
  unfold fresh. intros H.
  apply andb_true_iff in H as [H R]. apply andb_true_iff in H as [B C].
  destruct (buf c); [|discriminate].
  apply negb_true_iff in C. apply Nat.leb_le in R. auto.
Qed.

(** [execute] starts in a state that satisfies the invariant, with all
    its steps still to take. *)
Lemma start_inv (remote : string -> string) (c : ExecutionConfig) (s : pool) :
  fresh_channels c = true ->
  start c = Some s ->
  pool_inv remote (Servers c) (Z.to_nat (threads c)) s
  /\ steps_left s
     = (4 * List.length (Servers c) + 1 + Z.to_nat (threads c))%nat.
Proof.
  intros F S. unfold start in S.
  destruct (threads c <? 0); [discriminate|]. injection S as <-.
  unfold fresh_channels in F. apply andb_true_iff in F as [FJ FR].
  apply fresh_spec in FJ as (BJ & CJ & RJ). apply fresh_spec in FR as (BR & CR & RR).
  split.
  - constructor; cbn [pending jobs workers responses results i]; try assumption.
    + unfold accounted; cbn [pending jobs workers responses results i].
      rewrite BJ, BR, in_flight_repeat_Idle. reflexivity.
    + reflexivity.
    + lia.
    + apply repeat_length.
    + congruence.
    + rewrite existsb_Gone_repeat_Idle. discriminate.
    + split; assumption.
    + rewrite BR. constructor.
  - unfold steps_left; cbn [pending jobs workers responses results i].
    rewrite BJ, BR, CJ, in_flight_repeat_Idle, alive_repeat_Idle. cbn [List.length]. lia.
Qed.

(** The run the claim does not cover: one host and a worker setting of 0.
    [execute] starts no worker; the producer sends the host and closes
    the job channel; then no goroutine can move, no worker has ended
    abnormally (there is none), and the collector, which waits for one
    response, has received none. *)
Lemma C6_no_worker_no_response :
  exists s,
    execute Examples.remote0 (Examples.poolConfig ["h1"] 0) [Send; CloseJobs] = Some s
    /\ workers s = []
    /\ stuck Examples.remote0 1 s = true
    /\ List.length (results s) = 0%nat
    /\ collected 1 s = false.
Proof.
  eexists. split; [vm_compute; reflexivity|].
  repeat split.
Qed.

(** C6 (with the worker the claim needs): in a pool with at least one
    worker, over freshly made channels, after any schedule of steps:
    one response has been pushed for every host a worker has taken and is
    no longer busy with; the collector has received as many times as its
    counter says, never more than there are hosts, and stops exactly at
    that count; what it has collected so far answers distinct entries of
    the host list; the schedule is bounded, the pool cannot halt before the
    collector is done and can always go on until it is; and when the
    collector is done the responses are as many as the hosts and their
    hosts are the host list up to order. *)
Theorem C6_every_host_answered_once :
  forall (remote : string -> string) (c : ExecutionConfig)
         (acts : list action) (s : pool),
    1 <= threads c ->
    fresh_channels c = true ->
    execute remote c acts = Some s ->
    let N := List.length (Servers c) in
    (count_actions is_Respond acts + List.length (in_flight (workers s))
     = count_actions is_Receive acts)%nat
    /\ count_actions is_Collect acts = i s
    /\ List.length (results s) = i s
    /\ (i s <= N)%nat
    /\ Forall (fun r => ResponseData r = remote (Host r)) (results s)
    /\ (exists others, Permutation (Servers c) (map Host (results s) ++ others))
    /\ (List.length acts <= 4 * N + 1 + Z.to_nat (threads c))%nat
    /\ (stuck remote N s = true -> collected N s = true)
    /\ (exists more s',
          execute remote c (acts ++ more) = Some s' /\ collected N s' = true)
    /\ (collected N s = true ->
        List.length (results s) = N
        /\ Permutation (map Host (results s)) (Servers c)).
Proof.
  intros remote c acts s T F E N.
  unfold execute in *.
  destruct (start c) as [s0|] eqn:S; [|discriminate].
  destruct (start_inv remote c s0 F S) as [I0 M0].
  destruct (run_inv remote _ _ acts s0 s I0 E) as [I M].
  destruct (run_counts remote _ acts s0 s E) as [C1 C2].
  assert (K : (1 <= Z.to_nat (threads c))%nat) by lia.
  assert (Z0 : in_flight (workers s0) = [] /\ i s0 = 0%nat).
  { unfold start in S. destruct (threads c <? 0); [discriminate|].
    injection S as <-. cbn. split; [apply in_flight_repeat_Idle | reflexivity]. }
  destruct Z0 as [W0 I0'].
  rewrite W0 in C1. rewrite I0' in C2. cbn [List.length] in C1.
  split; [lia|]. split; [lia|].
  split; [apply (inv_count _ _ _ _ I)|].
  split; [apply (inv_bound _ _ _ _ I)|].
  split; [exact (proj1 (proj1 (Forall_app _ _ _) (inv_data _ _ _ _ I)))|].
  split; [eexists; apply (inv_hosts _ _ _ _ I)|].
  split; [fold N in M0; lia|].
  split; [apply (stuck_collected remote _ _ s K I)|].
  split.
  - destruct (run_to_end remote _ _ s K I) as (more & s' & R & C).
    exists more, s'. rewrite run_app, E. auto.
  - intros C. destruct (collected_all remote _ _ s I C) as (L & P & _). auto.
Qed.

(** The theorem at two hosts and two workers, along a schedule in which
    the second host is answered first. *)
Lemma C6_two_hosts_two_workers :
  exists s,
    execute Examples.remote0 (Examples.poolConfig ["h1"; "h2"] 2)
            Examples.twoHostsSchedule = Some s
    /\ map Host (results s) = ["h2"; "h1"]
    /\ List.length (results s) = 2%nat
    /\ Permutation (map Host (results s)) ["h1"; "h2"].
Proof.
  eexists. split; [vm_compute; reflexivity|].
  split; [reflexivity|].
  refine (proj2 (proj2 (proj2 (proj2 (proj2 (proj2 (proj2 (proj2 (proj2
    (C6_every_host_answered_once Examples.remote0
       (Examples.poolConfig ["h1"; "h2"] 2) Examples.twoHostsSchedule _ _ _ _)))))))))
    _).
  - vm_compute. discriminate.
  - reflexivity.
  - vm_compute. reflexivity.
  - reflexivity.
Defined.

(* ================================================================= *)
(** ** The front ends: exits, fatal errors, authentication methods *)

Ltac unfold_proc :=
  unfold MainGo.main, MainGo.report, MainGo.dispatch,
    MainGo.configure, MainGo.sshAuthMethods, MainGo.sshAgent,
    MainGo.sshPrivateKey, MainGo.usage, MainGo.passwordCallback,
    load, getPrivateKey, passwordPrompt, passwordCallback, usage,
    log_Fatal, os_Exit, emit, bind, ret, terminal_ReadPassword,
    exit_status, exited, final_trace.

Ltac branch :=
  match goal with
  | |- context [match ?x with _ => _ end] =>
      lazymatch x with
      | context [match _ with _ => _ end] => fail
      | _ => destruct x eqn:?
      end
  end.

Ltac all_paths := unfold_proc; repeat (cbn [fst snd stdin trace]; branch).

(** C9: the parser of the host list returns a nil error for every input:
    the empty input gives the one-entry list of the empty host, and the
    usage exit with code 3 that follows a failed parse can be reached in
    neither program.  [load] exits with 3 only when neither a script nor
    command tokens are given; [main], up to the start of the pool, never
    exits with 3 when its package parses with [NewServerList]. *)
Theorem C9_parser_never_fails :
  forall arg : string,
    snd (NewServerList arg) = None
    /\ NewServerList "" = ([""], None)
    /\ (forall NewScriptExecutor env f st,
          implb (exit_status (load NewScriptExecutor env f st) =? 3)
                (Part000.no_workload f) = true)
    /\ (forall gc env f st,
          (exit_status (MainGo.configure (MainGo.with_parser NewServerList gc) env f st)
           =? 3) = false).
Proof.
  intros arg. split; [reflexivity|]. split; [reflexivity|]. split.
  - intros. unfold Part000.no_workload.
    all_paths; cbn; try reflexivity; try discriminate.
    match goal with H : negb _ = false |- _ => apply negb_false_iff in H; rewrite H end.
    reflexivity.
  - intros. unfold MainGo.with_parser.
    all_paths; cbn; try reflexivity; try discriminate.
Qed.

Lemma strict_checking_by_default (env : Env) (args : list string) :
  MainGo.strictHostCheckFlag (MainGo.defaultFlags env args) = false
  /\ flagStrictHostCheck (Part000.defaultFlags env args) = false.
Proof. split; reflexivity. Qed.

(** C10: with strict host-key checking on (the flag's default) and a
    known-hosts file that cannot be loaded, a run that has passed the
    checks of its arguments ends in [log.Fatal], exit status 1, and the
    pool has not been started: no host has been contacted.  This holds of
    [main] and of [load], which is left before [execute] is entered. *)
Theorem C10_unloadable_known_hosts_is_fatal :
  (forall gc env f input e,
     MainGo.flags_pass gc f = true ->
     MainGo.strictHostCheckFlag f = false ->
     knownhosts_New env (Sprintf0 env (MainGo.knownHostsFileFlag f)) = Some e ->
     let r := MainGo.main gc env f (start_state input) in
     exit_status r = 1
     /\ no_host_contacted (final_trace r) = true
     /\ last (final_trace r) PrintDefaults
        = LogFatal ("Could not parse known_hosts file: " ++ e)%string)
  /\ (forall NewScriptExecutor env f input e,
        Part000.flags_pass f = true ->
        workload_pass NewScriptExecutor f = true ->
        flagStrictHostCheck f = false ->
        knownhosts_New env (Sprintf0 env (flagKnownHostsFile f)) = Some e ->
        let r := load NewScriptExecutor env f (start_state input) in
        exit_status r = 1
        /\ no_host_contacted (final_trace r) = true
        /\ last (final_trace r) PrintDefaults
           = LogFatal ("Could not parse known_hosts file: " ++ e)%string).
Proof.
  split.
  - intros gc env f input e F S K r. subst r.
    unfold MainGo.flags_pass in F.
    apply andb_true_iff in F as [F A]. apply andb_true_iff in F as [H V].
    apply negb_true_iff in H. apply negb_true_iff in V.
    unfold_proc. rewrite H, V, S, K.
    destruct (MainGo.Args f) as [|arg0 rest]; [discriminate|].
    destruct (MainGo.gc_NewServerList gc arg0) as [servers [err|]]; [discriminate|].
    destruct (ReadInConfig env); cbn; repeat split.
  - intros NSE env f input e F W S K r. subst r.
    unfold Part000.flags_pass in F.
    apply andb_true_iff in F as [F A]. apply andb_true_iff in F as [F U].
    apply andb_true_iff in F as [H V].
    apply negb_true_iff in H. apply negb_true_iff in V. apply negb_true_iff in U.
    unfold workload_pass in W.
    unfold_proc. rewrite H, V, U, S, K.
    destruct (Args f) as [|arg0 rest]; [discriminate|].
    cbn [NewServerList tl] in *.
    destruct (negb (flagScript f =? "")%string).
    + destruct (NSE (flagScript f) _); [|discriminate]. cbn. repeat split.
    + destruct rest; [discriminate|]. cbn. repeat split.
Qed.

(** The theorem on the command line [gossh h1,h2 uptime] and its
    single-file counterpart, on a machine without a known-hosts file. *)
Lemma C10_no_known_hosts_file :
  let env := Examples.machine true Examples.good_default_key false in
  exit_status (MainGo.main Examples.package env
                 (Examples.gossh env ["h1,h2"; "uptime"]) (start_state [])) = 1
  /\ exit_status (load Examples.scriptExecutor env
                    (Examples.gossh0 env ["h1,h2"; "uptime"]) (start_state [])) = 1.
Proof.
  intros env. split.
  - refine (proj1 (proj1 C10_unloadable_known_hosts_is_fatal Examples.package env
                     (Examples.gossh env ["h1,h2"; "uptime"]) [] _ _ _ _));
      reflexivity.
  - refine (proj1 (proj2 C10_unloadable_known_hosts_is_fatal Examples.scriptExecutor env
                     (Examples.gossh0 env ["h1,h2"; "uptime"]) [] _ _ _ _ _));
      reflexivity.
Defined.

Lemma printResults_returns (gc : MainGo.gosshclient) (results : list MainGo.ClientResponse)
    (st : State) :
  exists st', MainGo.printResults gc results st = (Ret tt, st').
Proof.
  revert st. induction results as [|res rest IH]; intros st; cbn [MainGo.printResults].
  - eexists. reflexivity.
  - unfold bind, emit. apply IH.
Qed.

Ltac split_flags F :=
  repeat match type of F with
    | (_ && _)%bool = true =>
        let F1 := fresh "F" in
        apply andb_true_iff in F as [F F1];
        try apply negb_true_iff in F1
    end;
  try apply negb_true_iff in F.

(** [main] does not get past a known-hosts file that cannot be loaded. *)
Lemma main_stops_at_known_hosts gc env f input e :
  MainGo.flags_pass gc f = true ->
  MainGo.strictHostCheckFlag f = false ->
  knownhosts_New env (Sprintf0 env (MainGo.knownHostsFileFlag f)) = Some e ->
  exit_status (MainGo.main gc env f (start_state input)) = 1
  /\ no_host_contacted (final_trace (MainGo.main gc env f (start_state input))) = true.
Proof.
  intros F S K. unfold MainGo.flags_pass in F. split_flags F.
  unfold_proc. rewrite F, F1, S, K.
  destruct (MainGo.Args f) as [|arg0 rest]; [discriminate|].
  destruct (MainGo.gc_NewServerList gc arg0) as [servers [err|]]; [discriminate|].
  destruct (ReadInConfig env); cbn; split; reflexivity.
Qed.

(** C7: the exit status of [main] is 0 after the help or the version is
    printed and when the run succeeds; 2 when no host list is given; 3
    when the host list is not parsed and when, the configuration done,
    there is neither a script nor a command; and 1, with no host
    contacted, on the fatal errors of configuration and authentication
    (known hosts not loaded, the given identity file not read or not
    parsed), and 1 when the run of the pool reports an error.  [load] of
    the single-file program exits the same way on help, version, missing
    host list and missing workload. *)
Theorem C7_exit_status :
  (forall gc env f input,
     let r := MainGo.main gc env f (start_state input) in
     (MainGo.helpFlag f = true -> exit_status r = 0)
     /\ (MainGo.helpFlag f = false -> MainGo.versionFlag f = true -> exit_status r = 0)
     /\ (MainGo.helpFlag f = false -> MainGo.versionFlag f = false ->
         MainGo.Args f = [] -> exit_status r = 2)
     /\ (forall arg0 rest servers e,
           MainGo.helpFlag f = false -> MainGo.versionFlag f = false ->
           MainGo.Args f = arg0 :: rest ->
           MainGo.gc_NewServerList gc arg0 = (servers, Some e) ->
           exit_status r = 3)
     /\ (forall g st1,
           MainGo.configure gc env f (start_state input) = (Ret g, st1) ->
           MainGo.no_workload f = true ->
           exit_status r = 3)
     /\ (forall e,
           MainGo.flags_pass gc f = true ->
           MainGo.strictHostCheckFlag f = false ->
           knownhosts_New env (Sprintf0 env (MainGo.knownHostsFileFlag f)) = Some e ->
           exit_status r = 1 /\ no_host_contacted (final_trace r) = true)
     /\ (forall e,
           MainGo.flags_pass gc f = true ->
           MainGo.trust_pass env f = true ->
           (MainGo.identityFileFlag f =? "")%string = false ->
           ioutil_ReadFile env (MainGo.identityFileFlag f) = Err e ->
           exit_status r = 1 /\ no_host_contacted (final_trace r) = true)
     /\ (forall key e,
           MainGo.flags_pass gc f = true ->
           MainGo.trust_pass env f = true ->
           (MainGo.identityFileFlag f =? "")%string = false ->
           ioutil_ReadFile env (MainGo.identityFileFlag f) = Val key ->
           ssh_ParsePrivateKey env key = Err e ->
           exit_status r = 1 /\ no_host_contacted (final_trace r) = true)
     /\ (forall g st1 results e st2,
           MainGo.configure gc env f (start_state input) = (Ret g, st1) ->
           MainGo.dispatch gc f g st1 = (Ret (results, Some e), st2) ->
           exit_status r = 1)
     /\ (forall g st1 results st2,
           MainGo.configure gc env f (start_state input) = (Ret g, st1) ->
           MainGo.dispatch gc f g st1 = (Ret (results, None), st2) ->
           exit_status r = 0))
  /\ (forall NewScriptExecutor env f input,
        let r := load NewScriptExecutor env f (start_state input) in
        (flagHelp f = true -> exit_status r = 0)
        /\ (flagHelp f = false -> flagVersion f = true -> exit_status r = 0)
        /\ (flagHelp f = false -> flagVersion f = false ->
            (flagUser f =? "")%string = false -> Args f = [] -> exit_status r = 2)
        /\ (Part000.flags_pass f = true -> Part000.no_workload f = true ->
            exit_status r = 3)).
Proof.
  split.
  - intros gc env f input r. subst r.
    split; [|split; [|split; [|split; [|split; [|split; [|split; [|split; [|split]]]]]]]].
    + intros H. unfold_proc. rewrite H. destruct (ReadInConfig env); reflexivity.
    + intros H V. unfold_proc. rewrite H, V. destruct (ReadInConfig env); reflexivity.
    + intros H V A. unfold_proc. rewrite H, V, A. destruct (ReadInConfig env); reflexivity.
    + intros arg0 rest servers e H V A P. unfold_proc. rewrite H, V, A, P.
      destruct (ReadInConfig env); reflexivity.
    + intros g st1 C W. unfold MainGo.main, bind. rewrite C.
      unfold MainGo.no_workload in W. apply andb_true_iff in W as [S T].
      unfold MainGo.dispatch. rewrite S. cbn [negb].
      destruct (tl (MainGo.Args f)); [reflexivity | discriminate].
    + intros e F S K.
      apply main_stops_at_known_hosts with (e := e); assumption.
    + intros e F T I R. unfold MainGo.flags_pass in F. split_flags F.
      unfold MainGo.trust_pass in T.
      unfold_proc. rewrite F, F1, I, R. cbn [negb].
      destruct (MainGo.Args f) as [|arg0 rest]; [discriminate|].
      destruct (MainGo.gc_NewServerList gc arg0) as [servers [err|]]; [discriminate|].
      destruct (MainGo.strictHostCheckFlag f);
        [|destruct (knownhosts_New env _); [discriminate|]];
        destruct (ReadInConfig env); destruct (net_Dial_unix env _); cbn; split; reflexivity.
    + intros key e F T I R P. unfold MainGo.flags_pass in F. split_flags F.
      unfold MainGo.trust_pass in T.
      unfold_proc. rewrite F, F1, I, R, P. cbn [negb].
      destruct (MainGo.Args f) as [|arg0 rest]; [discriminate|].
      destruct (MainGo.gc_NewServerList gc arg0) as [servers [err|]]; [discriminate|].
      destruct (MainGo.strictHostCheckFlag f);
        [|destruct (knownhosts_New env _); [discriminate|]];
        destruct (ReadInConfig env); destruct (net_Dial_unix env _); cbn; split; reflexivity.
    + intros g st1 results e st2 C D. unfold MainGo.main, bind. rewrite C, D. reflexivity.
    + intros g st1 results st2 C D. unfold MainGo.main, bind. rewrite C, D.
      cbn [MainGo.report].
      destruct (printResults_returns gc results st2) as [st3 ->]. reflexivity.
  - intros NSE env f input r. subst r.
    split; [|split; [|split]].
    + intros H. unfold_proc. rewrite H. reflexivity.
    + intros H V. unfold_proc. rewrite H, V. reflexivity.
    + intros H V U A. unfold_proc. rewrite H, V, U, A. reflexivity.
    + intros F W. unfold Part000.flags_pass in F. split_flags F.
      unfold Part000.no_workload in W. apply andb_true_iff in W as [S T].
      unfold_proc. rewrite F, F2, F1, S. cbn [negb].
      destruct (Args f) as [|arg0 rest]; [discriminate|].
      cbn [NewServerList tl] in *. destruct rest; [reflexivity | discriminate].
Qed.

(** The theorem on command lines of a machine with an agent, a default
    key and a known-hosts file: [gossh -h], [gossh -v], [gossh],
    [gossh h1,h2] (no command), [gossh h1,h2 uptime]; with a parser that
    rejects the list; without the known-hosts file; with identity files
    that are missing or are not keys; with a pool that reports an error. *)
Lemma C7_command_lines :
  let env := Examples.machine true Examples.garbage_identity true in
  let nokh := Examples.machine true Examples.good_default_key false in
  let run gc env f := exit_status (MainGo.main gc env f (start_state [])) in
  let run0 f := exit_status (load Examples.scriptExecutor env f (start_state [])) in
  run Examples.package env (Examples.with_help (Examples.gossh env [])) = 0
  /\ run Examples.package env (Examples.with_version (Examples.gossh env [])) = 0
  /\ run Examples.package env (Examples.gossh env []) = 2
  /\ run Examples.strict_package env (Examples.gossh env ["h1,h2"; "uptime"]) = 3
  /\ run Examples.package env (Examples.gossh env ["h1,h2"]) = 3
  /\ run Examples.package nokh (Examples.gossh nokh ["h1,h2"; "uptime"]) = 1
  /\ run Examples.package env
         (Examples.with_identity "/tmp/missing" (Examples.gossh env ["h1,h2"; "uptime"])) = 1
  /\ run Examples.package env
         (Examples.with_identity "/tmp/id" (Examples.gossh env ["h1,h2"; "uptime"])) = 1
  /\ run Examples.failing_package env (Examples.gossh env ["h1,h2"; "uptime"]) = 1
  /\ run Examples.package env (Examples.gossh env ["h1,h2"; "uptime"]) = 0
  /\ run0 (Examples.with_help0 (Examples.gossh0 env [])) = 0
  /\ run0 (Examples.with_version0 (Examples.gossh0 env [])) = 0
  /\ run0 (Examples.gossh0 env []) = 2
  /\ run0 (Examples.gossh0 env ["h1,h2"]) = 3.
Proof.
  intros env nokh run run0. subst run run0.
  pose proof (fun gc env f => proj1 C7_exit_status gc env f []) as M.
  pose proof (fun f => proj2 C7_exit_status Examples.scriptExecutor env f []) as L.
  cbv zeta in M, L.
  split; [eapply (proj1 (M _ _ _)); first [reflexivity | lazy; reflexivity]|].
  split; [eapply (proj1 (proj2 (M _ _ _))); first [reflexivity | lazy; reflexivity]|].
  split; [eapply (proj1 (proj2 (proj2 (M _ _ _)))); first [reflexivity | lazy; reflexivity]|].
  split; [eapply (proj1 (proj2 (proj2 (proj2 (M _ _ _))))); first [reflexivity | lazy; reflexivity]|].
  split; [eapply (proj1 (proj2 (proj2 (proj2 (proj2 (M _ _ _)))))); first [reflexivity | lazy; reflexivity]|].
  split; [eapply proj1; eapply (proj1 (proj2 (proj2 (proj2 (proj2 (proj2 (M _ _ _))))))); first [reflexivity | lazy; reflexivity]|].
  split; [eapply proj1; eapply (proj1 (proj2 (proj2 (proj2 (proj2 (proj2 (proj2 (M _ _ _)))))))); first [reflexivity | lazy; reflexivity]|].
  split; [eapply proj1; eapply (proj1 (proj2 (proj2 (proj2 (proj2 (proj2 (proj2 (proj2 (M _ _ _))))))))); first [reflexivity | lazy; reflexivity]|].
  split; [eapply (proj1 (proj2 (proj2 (proj2 (proj2 (proj2 (proj2 (proj2 (proj2 (M _ _ _)))))))))); first [reflexivity | lazy; reflexivity]|].
  split; [eapply (proj2 (proj2 (proj2 (proj2 (proj2 (proj2 (proj2 (proj2 (proj2 (M _ _ _)))))))))); first [reflexivity | lazy; reflexivity]|].
  split; [eapply (proj1 (L _)); first [reflexivity | lazy; reflexivity]|].
  split; [eapply (proj1 (proj2 (L _))); first [reflexivity | lazy; reflexivity]|].
  split; [eapply (proj1 (proj2 (proj2 (L _)))); first [reflexivity | lazy; reflexivity]|].
  eapply (proj2 (proj2 (proj2 (L _)))); first [reflexivity | lazy; reflexivity].
Defined.

(* ================================================================= *)
(** ** The channels of the pool *)

(** What [load] puts into the configuration it returns. *)
Lemma load_returns NewScriptExecutor env f st c st' :
  load NewScriptExecutor env f st = (Ret c, st') ->
  ComChannel c = {| JobChannel := make_chan 100; ResponseChannel := make_chan 100 |}
  /\ NumProcs c = flagProcs f
  /\ exists arg0 rest, Args f = arg0 :: rest /\ Servers c = Split arg0 comma.
Proof.
  intros L. revert L. all_paths; intros L; try discriminate L;
    injection L as <- _; cbn [ComChannel NumProcs Servers];
    (split; [reflexivity|]; split; [reflexivity|]);
    match goal with
    | H : NewServerList ?a = (?l, None) |- _ =>
        injection H as <-; eexists; eexists; split; reflexivity
    end.
Qed.

(** A host list of 101 hosts (100 commas): [load] returns a configuration
    whose two channels have room for 100, fewer than there are hosts. *)
Lemma C8_hundred_and_one_hosts :
  let env := Examples.machine true Examples.good_default_key true in
  exists c st',
    load Examples.scriptExecutor env
         (Examples.gossh0 env [Examples.commas 100; "uptime"]) (start_state [])
    = (Ret c, st')
    /\ List.length (Servers c) = 101%nat
    /\ cap (JobChannel (ComChannel c)) = 100%nat
    /\ cap (ResponseChannel (ComChannel c)) = 100%nat
    /\ (cap (JobChannel (ComChannel c)) <? List.length (Servers c))%nat = true.
Proof.
  intros env. eexists. eexists.
  split; [vm_compute; reflexivity|].
  repeat split.
Qed.

(** C8 (as the code has it): the two channels of every configuration
    [load] returns are empty, open and of capacity 100, whatever the
    number of hosts; so their capacity is at least the number of hosts
    exactly when there are at most 100 hosts. *)
Theorem C8_channels_hold_one_hundred :
  forall NewScriptExecutor env f st c st',
    load NewScriptExecutor env f st = (Ret c, st') ->
    cap (JobChannel (ComChannel c)) = 100%nat
    /\ cap (ResponseChannel (ComChannel c)) = 100%nat
    /\ fresh_channels c = true
    /\ ((List.length (Servers c) <= cap (JobChannel (ComChannel c))
         /\ List.length (Servers c) <= cap (ResponseChannel (ComChannel c)))%nat
        <-> (List.length (Servers c) <= 100)%nat).
Proof.
  intros NSE env f st c st' L.
  destruct (load_returns _ _ _ _ _ _ L) as (C & _ & _).
  rewrite C. unfold fresh_channels. rewrite C. cbn.
  split; [reflexivity|]. split; [reflexivity|]. split; [reflexivity|].
  split; [intros [H _]; exact H | intros H; split; exact H].
Qed.

(** The theorem on [gossh h1,h2 uptime]: two hosts, room for 100. *)
Lemma C8_two_hosts :
  let env := Examples.machine true Examples.good_default_key true in
  exists c st',
    load Examples.scriptExecutor env
         (Examples.gossh0 env ["h1,h2"; "uptime"]) (start_state [])
    = (Ret c, st')
    /\ Servers c = ["h1"; "h2"]
    /\ cap (JobChannel (ComChannel c)) = 100%nat
    /\ cap (ResponseChannel (ComChannel c)) = 100%nat.
Proof.
  intros env. eexists. eexists.
  split; [vm_compute; reflexivity|].
  split; [reflexivity|].
  match goal with
  | |- cap (JobChannel (ComChannel ?c)) = _ /\ _ =>
      pose proof (C8_channels_hold_one_hundred Examples.scriptExecutor env
                    (Examples.gossh0 env ["h1,h2"; "uptime"]) (start_state []) c _
                    eq_refl) as (J & R & _)
  end.
  split; [exact J | exact R].
Defined.

(* ================================================================= *)
(** ** The authentication methods *)

(** An identity file named on the command line must be usable: a failure
    to read it or to parse it ends the run in [log.Fatal]. *)
Lemma explicit_identity_failure_is_fatal env file st :
  (file =? "")%string = false ->
  (exists e, ioutil_ReadFile env file = Err e)
  \/ (exists key e, ioutil_ReadFile env file = Val key /\ ssh_ParsePrivateKey env key = Err e) ->
  exit_status (MainGo.sshPrivateKey env file st) = 1
  /\ exit_status (getPrivateKey env file true st) = 1.
Proof.
  intros N [[e R] | (key & e & R & P)]; unfold_proc; rewrite ?N, R, ?P; cbn; split; reflexivity.
Qed.

(** The default identity file may be missing: then there is no key
    method, and the run goes on. *)
Lemma default_identity_unreadable_is_skipped env st e :
  ioutil_ReadFile env (Getenv env "HOME" ++ "/.ssh/id_rsa")%string = Err e ->
  fst (MainGo.sshPrivateKey env "" st) = Ret nilAuthMethod
  /\ fst (getPrivateKey env (Getenv env "HOME" ++ "/.ssh/id_rsa")%string false st) = Ret None.
Proof.
  intros R. unfold_proc. cbn [String.eqb negb]. rewrite R. split; reflexivity.
Qed.

(** But the parse of the key is checked without regard to [failOnErr]: a
    default identity file that is read and does not parse ends the run. *)
Lemma default_identity_unparsable_is_fatal env st key e :
  ioutil_ReadFile env (Getenv env "HOME" ++ "/.ssh/id_rsa")%string = Val key ->
  ssh_ParsePrivateKey env key = Err e ->
  fst (MainGo.sshPrivateKey env "" st) = Exit 1
  /\ fst (getPrivateKey env (Getenv env "HOME" ++ "/.ssh/id_rsa")%string false st) = Exit 1.
Proof.
  intros R P. unfold_proc. cbn [String.eqb negb]. rewrite R, P. split; reflexivity.
Qed.

(** C3, at the input where the code leaves it: no identity file is given
    and the default one, [$HOME/.ssh/id_rsa], is read but is not a key the
    parser accepts.  Both programs end in [log.Fatal] with exit status 1
    before any host is contacted, where the claim has the key method
    left out and the run going on. *)
Theorem C3_unparsable_default_key_ends_the_run :
  let env := Examples.machine true Examples.bad_default_key true in
  MainGo.identityFileFlag (Examples.gossh env ["h1,h2"; "uptime"]) = ""
  /\ MainGo.sshPrivateKey env "" (start_state [])
     = (Exit 1,
        {| stdin := [];
           trace := [ReadFile "/home/operator/.ssh/id_rsa";
                     LogFatal "Could not parse private key: ssh: no key found"] |})
  /\ exit_status (MainGo.main Examples.package env
                    (Examples.gossh env ["h1,h2"; "uptime"]) (start_state [])) = 1
  /\ no_host_contacted
       (final_trace (MainGo.main Examples.package env
                       (Examples.gossh env ["h1,h2"; "uptime"]) (start_state []))) = true
  /\ fst (getPrivateKey env "/home/operator/.ssh/id_rsa" false (start_state [])) = Exit 1
  /\ exit_status (load Examples.scriptExecutor env
                    (Examples.gossh0 env ["h1,h2"; "uptime"]) (start_state [])) = 1.
Proof.
  intros env.
  split; [reflexivity|].
  split; [vm_compute; reflexivity|].
  split; [vm_compute; reflexivity|].
  split; [vm_compute; reflexivity|].
  split; vm_compute; reflexivity.
Qed.

(** The list of methods always has its three places, in the order agent,
    key, password; the agent's place holds the agent's signers when the
    socket answers and a nil method when it does not. *)
Lemma sshAuthMethods_shape env identityFile st l st' :
  MainGo.sshAuthMethods env identityFile st = (Ret l, st') ->
  exists a k,
    l = [a; k; MainGo.sshPassword]
    /\ a = match net_Dial_unix env (Getenv env "SSH_AUTH_SOCK") with
           | Some _ => nilAuthMethod
           | None => PublicKeysCallback (Getenv env "SSH_AUTH_SOCK")
           end.
Proof.
  intros H. revert H. all_paths; intros H; try discriminate H;
    injection H as <- _; eexists; eexists; split; reflexivity.
Qed.

(** Dialling the agent never ends the run. *)
Lemma sshAgent_returns env st :
  exists a st', MainGo.sshAgent env st = (Ret a, st').
Proof.
  unfold_proc. destruct (net_Dial_unix env _); eexists; eexists; reflexivity.
Qed.

(** C5, at the input where the code leaves it: the agent's socket does not
    answer.  The run goes on, but the list handed to the connections has
    three entries and the first is a nil method in the agent's place,
    where the claim has the agent left out of the list.  With an agent
    that answers, its signers are the first entry. *)
Theorem C5_unreachable_agent_leaves_nil_entry :
  let down := Examples.machine false Examples.good_default_key true in
  let up := Examples.machine true Examples.good_default_key true in
  fst (MainGo.sshAuthMethods down "" (start_state []))
  = Ret [nilAuthMethod; PublicKeys (Some (SignerOf "PRIVATE KEY")); MainGo.sshPassword]
  /\ fst (MainGo.sshAuthMethods up "" (start_state []))
     = Ret [PublicKeysCallback "/tmp/agent.sock";
            PublicKeys (Some (SignerOf "PRIVATE KEY")); MainGo.sshPassword]
  /\ exit_status (MainGo.main Examples.package down
                    (Examples.gossh down ["h1,h2"; "uptime"]) (start_state [])) = 0
  /\ match fst (MainGo.configure Examples.package down
                     (Examples.gossh down ["h1,h2"; "uptime"]) (start_state [])) with
     | Ret g => option_map (fun c => map is_nil (Auth c)) (MainGo.clientConfig g)
     | Exit _ => None
     end = Some [true; false; false].
Proof.
  intros down up.
  split; [vm_compute; reflexivity|].
  split; [vm_compute; reflexivity|].
  split; vm_compute; reflexivity.
Qed.

(* ================================================================= *)
(** ** The password *)









(* ================================================================= *)
(** ** Further properties of the host list *)

Lemma Split_app_sep (a b : string) (sep : ascii) :
  Split (a ++ String sep b)%string sep = Split a sep ++ Split b sep.
Proof.
  induction a as [|c a IH]; cbn [append Split].
  - rewrite Ascii.eqb_refl. reflexivity.
  - rewrite IH. destruct (Ascii.eqb c sep); [reflexivity|].
    pose proof (Split_nonempty a sep) as NE.
    destruct (Split a sep) as [|p ps]; [contradiction | reflexivity].
Qed.

Lemma Split_Join (l : list string) (sep : ascii) :
  l <> [] ->
  Forall (fun piece => Contains piece sep = false) l ->
  Split (Join l sep) sep = l.
Proof.
  induction l as [|x l IH]; intros NE F; [contradiction|].
  inversion F as [|? ? Fx Fl]; subst.
  destruct l as [|y l].
  - cbn [Join]. now apply Split_without_sep.
  - rewrite Join_cons by discriminate. rewrite Split_app_sep.
    rewrite (Split_without_sep _ _ Fx), IH by (discriminate || assumption).
    reflexivity.
Qed.

(** X1: every non-empty list of host names without commas is what the
    parser returns for the names joined by commas: nothing is merged,
    dropped, trimmed or reordered, empty names and repeated names
    included. *)
Theorem X1_NewServerList_of_joined_hosts :
  forall hosts : list string,
    hosts <> [] ->
    Forall (fun host => Contains host comma = false) hosts ->
    NewServerList (Join hosts comma) = (hosts, None).
Proof.
  intros hosts NE F. rewrite NewServerList_eq.
  f_equal. apply Split_Join; assumption.
Qed.

(** X1 on a list with a repeated name, an empty name and a name with
    spaces. *)
Lemma X1_repeated_and_empty_names :
  NewServerList "web1,,web1, db 2" = (["web1"; ""; "web1"; " db 2"], None).
Proof.
  apply (X1_NewServerList_of_joined_hosts ["web1"; ""; "web1"; " db 2"]).
  - discriminate.
  - repeat constructor.
Defined.

(** X2: the parse of two host lists written one after the other with a
    comma between them is the parse of the first followed by the parse of
    the second. *)
Theorem X2_NewServerList_of_two_lists :
  forall a b : string,
    fst (NewServerList (a ++ String comma b)%string)
    = fst (NewServerList a) ++ fst (NewServerList b).
Proof.
  intros a b. rewrite !NewServerList_eq. cbn [fst]. apply Split_app_sep.
Qed.

(* ================================================================= *)
(** ** Further properties of the worker count and of the pool *)

(** X3: for a host list that is not empty, [main] never asks for more
    workers than there are hosts, and asks for at least one exactly when
    the setting is -1 or positive: a setting of 0, or below -1, is handed
    on as it is. *)
Theorem X3_mainRoutines_bounds :
  forall (P : Z) (servers : list string),
    servers <> [] ->
    MainGo.mainRoutines P servers <= MainGo.len servers
    /\ (1 <= MainGo.mainRoutines P servers <-> P = -1 \/ 1 <= P)
    /\ (P <= 0 -> P <> -1 -> MainGo.mainRoutines P servers = P).
Proof.
  intros P servers NE.
  assert (N : 1 <= MainGo.len servers).
  { unfold MainGo.len. destruct servers; [contradiction | cbn [List.length]; lia]. }
  unfold MainGo.mainRoutines.
  destruct (Z.eqb_spec P (-1)) as [->|NP]; cbn [orb].
  - split; [lia|]. split; [split; auto | lia].
  - destruct (Z.ltb_spec (MainGo.len servers) P); (split; [lia|]); (split; [|lia]);
      split; intros; try lia.
Qed.

(** X3 on two hosts: the setting 0 is handed on, the setting -1 gives
    one worker per host. *)
Lemma X3_two_hosts_no_worker :
  MainGo.mainRoutines 0 ["h1"; "h2"] = 0 /\ MainGo.mainRoutines (-1) ["h1"; "h2"] = 2.
Proof.
  destruct (X3_mainRoutines_bounds 0 ["h1"; "h2"]) as (_ & _ & Z0); [discriminate|].
  split; [apply Z0; lia | reflexivity].
Defined.

(** X4: [execute] starts nothing exactly when the configured count is
    negative ([wg.Add] panics); otherwise it starts the smaller of the
    configured count and the number of hosts, never more workers than
    hosts, all of them waiting, with every host still to be sent and
    nothing collected. *)
Theorem X4_execute_start :
  forall c : ExecutionConfig,
    (start c = None <-> NumProcs c < 0)
    /\ (forall s, start c = Some s ->
          List.length (workers s) = Z.to_nat (Z.min (NumProcs c) (len (Servers c)))
          /\ (List.length (workers s) <= List.length (Servers c))%nat
          /\ Forall (fun w => w = Idle) (workers s)
          /\ pending s = Servers c
          /\ results s = [] /\ i s = 0%nat).
Proof.
  intros c. unfold start. rewrite threads_min.
  assert (0 <= len (Servers c)) by (unfold len; lia).
  destruct (Z.ltb_spec (Z.min (NumProcs c) (len (Servers c))) 0) as [L | G].
  - split; [split; [lia | reflexivity] | discriminate].
  - split; [split; [discriminate | lia]|].
    intros s E. injection E as <-. cbn [workers pending results i].
    rewrite repeat_length.
    split; [reflexivity|]. split; [unfold len in *; lia|].
    split; [|auto]. apply Forall_forall. intros w W. now apply repeat_spec in W.
Qed.

(** X5: with a worker setting of 0 nothing is ever collected, whatever
    the schedule: if there is a host, the collector loop never ends. *)
Theorem X5_no_worker_nothing_collected :
  forall (remote : string -> string) (c : ExecutionConfig) (acts : list action) (s : pool),
    NumProcs c = 0 ->
    fresh_channels c = true ->
    execute remote c acts = Some s ->
    results s = []
    /\ (Servers c <> [] -> collected (List.length (Servers c)) s = false).
Proof.
  intros remote c acts s P F E. unfold execute in E.
  destruct (start c) as [s0|] eqn:S; [|discriminate].
  destruct (start_inv remote c s0 F S) as [I0 _].
  destruct (run_inv remote _ _ acts s0 s I0 E) as [I _].
  assert (T : threads c = 0).
  { rewrite threads_min, P. unfold len. lia. }
  unfold start in S. rewrite T in S. cbn in S. injection S as <-.
  unfold fresh_channels in F. apply andb_true_iff in F as [_ FR].
  apply fresh_spec in FR as (BR & _).
  pose proof (fun W B R0 => no_worker_no_result remote (Servers c) acts _ s W B R0 E) as NW.
  cbn [workers responses results] in NW.
  destruct (NW eq_refl BR eq_refl) as (_ & _ & R).
  split; [exact R|].
  intros NE. unfold collected.
  rewrite <- (inv_count _ _ _ _ I), R. cbn [List.length].
  destruct (Servers c); [contradiction | reflexivity].
Qed.

(** X5 on one host: sent, the channel closed, and nothing collected. *)
Lemma X5_one_host_no_worker :
  exists s,
    execute Examples.remote0 (Examples.poolConfig ["h1"] 0) [Send; CloseJobs] = Some s
    /\ results s = []
    /\ collected 1 s = false.
Proof.
  eexists. split; [vm_compute; reflexivity|].
  match goal with
  | |- results ?s = [] /\ _ =>
      assert (E : execute Examples.remote0 (Examples.poolConfig ["h1"] 0)
                          [Send; CloseJobs] = Some s) by (vm_compute; reflexivity);
      destruct (X5_no_worker_nothing_collected Examples.remote0
                  (Examples.poolConfig ["h1"] 0) [Send; CloseJobs] s
                  eq_refl eq_refl E) as [R C]
  end.
  split; [exact R | apply C; discriminate].
Defined.

Ltac step_cases a St :=
  destruct a; cbn [step] in St;
  repeat match type of St with
    | match ?x with _ => _ end = Some _ => destruct x eqn:?; try discriminate St
    | (if ?b then _ else _) = Some _ => destruct b eqn:?; try discriminate St
    end;
  injection St as <-;
  repeat match goal with
    | H : send _ _ = Some _ |- _ => apply send_spec in H as (? & ? & ->)
    | H : recv _ = Some _ |- _ => apply recv_spec in H as (? & ? & ->)
    end;
  cbn [pending jobs workers responses results i buf closed cap close].

(** Along a schedule the hosts leave the producer and the job channel in
    the order of the list, and no channel holds more than its capacity. *)
Lemma run_order remote n hosts acts : forall s s' taken,
  run remote n acts s = Some s' ->
  hosts = taken ++ buf (jobs s) ++ pending s ->
  (List.length (buf (jobs s)) <= cap (jobs s))%nat ->
  (List.length (buf (responses s)) <= cap (responses s))%nat ->
  exists taken',
    hosts = taken' ++ buf (jobs s') ++ pending s'
    /\ List.length taken' = (List.length taken + count_actions is_Receive acts)%nat
    /\ (List.length (buf (jobs s')) <= cap (jobs s'))%nat
    /\ (List.length (buf (responses s')) <= cap (responses s'))%nat
    /\ cap (jobs s') = cap (jobs s) /\ cap (responses s') = cap (responses s).
Proof.
  unfold count_actions.
  induction acts as [|a acts IH]; intros s s' taken R O BJ BR; cbn [run] in R.
  - injection R as <-. exists taken. cbn. repeat split; auto; lia.
  - destruct (step remote n a s) as [s1|] eqn:St; [|discriminate].
    assert (Step : exists taken1,
               hosts = taken1 ++ buf (jobs s1) ++ pending s1
               /\ List.length taken1
                  = (List.length taken + List.length (filter is_Receive [a]))%nat
               /\ (List.length (buf (jobs s1)) <= cap (jobs s1))%nat
               /\ (List.length (buf (responses s1)) <= cap (responses s1))%nat
               /\ cap (jobs s1) = cap (jobs s) /\ cap (responses s1) = cap (responses s)).
    { step_cases a St;
        try match goal with H : buf _ = _ |- _ => rewrite ?H in * end;
        [ exists taken | exists taken
        | match goal with O : hosts = taken ++ (?h :: _) ++ _ |- _ => exists (taken ++ [h]) end
        | exists taken | exists taken | exists taken ];
        rewrite ?length_app in *; cbn [List.length filter is_Receive] in *;
        (split; [rewrite O, <- ?app_assoc; reflexivity|]);
        repeat split; auto; lia. }
    destruct Step as (taken1 & O1 & L1 & BJ1 & BR1 & CJ1 & CR1).
    destruct (IH s1 s' taken1 R O1 BJ1 BR1) as (taken' & O' & L' & BJ' & BR' & CJ' & CR').
    exists taken'. cbn [filter] in *.
    repeat split; auto; try congruence.
    rewrite L', L1. destruct (is_Receive a); cbn [List.length]; lia.
Qed.

(** Along a schedule the collector only appends to its results, taking
    the responses in the order in which they were pushed. *)
Lemma run_results remote n acts : forall s s',
  run remote n acts s = Some s' ->
  exists more pushed,
    results s' = results s ++ more
    /\ results s' ++ buf (responses s') = (results s ++ buf (responses s)) ++ pushed
    /\ List.length more = count_actions is_Collect acts
    /\ List.length pushed = count_actions is_Respond acts.
Proof.
  unfold count_actions.
  induction acts as [|a acts IH]; intros s s' R; cbn [run] in R.
  - injection R as <-. exists [], []. rewrite !app_nil_r. auto.
  - destruct (step remote n a s) as [s1|] eqn:St; [|discriminate].
    assert (Step : exists m1 p1,
               results s1 = results s ++ m1
               /\ results s1 ++ buf (responses s1) = (results s ++ buf (responses s)) ++ p1
               /\ List.length m1 = List.length (filter is_Collect [a])
               /\ List.length p1 = List.length (filter is_Respond [a])).
    { step_cases a St; cbn [filter is_Collect is_Respond List.length];
        try match goal with H : buf _ = _ |- _ => rewrite ?H in * end.
      - exists [], []. rewrite !app_nil_r. auto.
      - exists [], []. rewrite !app_nil_r. auto.
      - exists [], []. rewrite !app_nil_r. auto.
      - exists [], []. rewrite !app_nil_r. auto.
      - match goal with
        | |- context [buf (responses s) ++ [?r]] => exists [], [r]
        end.
        rewrite <- !app_assoc, !app_nil_r. auto.
      - match goal with
        | |- context [results s ++ [?r]] => exists [r], []
        end.
        rewrite <- !app_assoc, !app_nil_r. auto. }
    destruct Step as (m1 & p1 & S1 & S2 & M1 & P1).
    destruct (IH s1 s' R) as (more & pushed & E1 & E2 & L1 & L2).
    exists (m1 ++ more), (p1 ++ pushed).
    rewrite E1, S1 at 1. rewrite E2, S2, <- !app_assoc, !length_app, L1, L2, M1, P1.
    cbn [filter]. destruct (is_Collect a), (is_Respond a); cbn [List.length Nat.add]; auto.
Qed.

(** X6: the producer of [execute] hands the hosts over in the order of
    the list: at every moment the list is the hosts taken so far, then
    the hosts waiting in the job channel, then the hosts not yet sent,
    and as many hosts have been taken as workers have received.  The
    job channel is closed only when every host has been sent, and neither
    channel ever holds more than its capacity, which stays the one
    [load] gave it. *)
Theorem X6_producer_keeps_order :
  forall (remote : string -> string) (c : ExecutionConfig) (acts : list action) (s : pool),
    fresh_channels c = true ->
    execute remote c acts = Some s ->
    (exists taken,
       Servers c = taken ++ buf (jobs s) ++ pending s
       /\ List.length taken = count_actions is_Receive acts)
    /\ (closed (jobs s) = true -> pending s = [])
    /\ (List.length (buf (jobs s)) <= cap (JobChannel (ComChannel c)))%nat
    /\ (List.length (buf (responses s)) <= cap (ResponseChannel (ComChannel c)))%nat.
Proof.
  intros remote c acts s F E. unfold execute in E.
  destruct (start c) as [s0|] eqn:S; [|discriminate].
  destruct (start_inv remote c s0 F S) as [I0 _].
  destruct (run_inv remote _ _ acts s0 s I0 E) as [I _].
  unfold fresh_channels in F. apply andb_true_iff in F as [FJ FR].
  apply fresh_spec in FJ as (BJ & _ & _). apply fresh_spec in FR as (BR & _ & _).
  unfold start in S. destruct (threads c <? 0); [discriminate|]. injection S as <-.
  destruct (run_order remote _ (Servers c) acts _ s [] E) as (taken & O & L & B1 & B2 & C1 & C2);
    cbn [pending jobs responses]; rewrite ?BJ, ?BR; cbn [app List.length]; try lia;
    [reflexivity|].
  cbn [jobs responses] in C1, C2. rewrite <- C1, <- C2.
  split; [exists taken; auto|]. split; [apply (inv_closed _ _ _ _ I) | auto].
Qed.

(** X6 on two hosts after both are sent and one is taken. *)
Lemma X6_two_hosts_one_taken :
  exists s,
    execute Examples.remote0 (Examples.poolConfig ["h1"; "h2"] 2)
            [Send; Send; CloseJobs; Receive 1] = Some s
    /\ buf (jobs s) = ["h2"] /\ pending s = []
    /\ exists taken, ["h1"; "h2"] = taken ++ buf (jobs s) ++ pending s
                     /\ List.length taken = 1%nat.
Proof.
  eexists. split; [vm_compute; reflexivity|].
  split; [reflexivity|]. split; [reflexivity|].
  match goal with
  | |- exists taken, _ = taken ++ buf (jobs ?s) ++ _ /\ _ =>
      assert (E : execute Examples.remote0 (Examples.poolConfig ["h1"; "h2"] 2)
                          [Send; Send; CloseJobs; Receive 1] = Some s)
        by (vm_compute; reflexivity);
      exact (proj1 (X6_producer_keeps_order Examples.remote0
                      (Examples.poolConfig ["h1"; "h2"] 2)
                      [Send; Send; CloseJobs; Receive 1] s eq_refl E))
  end.
Defined.

(** X7: the collector of [execute] only appends: whatever it has
    collected stays, in place, when the pool goes on, one result is added
    per receive, and the results followed by the responses still waiting
    are the responses in the order in which they were pushed. *)
Theorem X7_collector_appends_in_order :
  forall (remote : string -> string) (n : nat) (acts : list action) (s s' : pool),
    run remote n acts s = Some s' ->
    exists more pushed,
      results s' = results s ++ more
      /\ results s' ++ buf (responses s') = (results s ++ buf (responses s)) ++ pushed
      /\ List.length more = count_actions is_Collect acts
      /\ List.length pushed = count_actions is_Respond acts.
Proof.
  intros remote n acts s s' R.
  destruct (run_results remote n acts s s' R) as (more & pushed & H).
  exists more, pushed. exact H.
Qed.

(** X7 on the schedule of two hosts and two workers, cut after the first
    receive of the collector and then run to its end. *)
Lemma X7_second_result_appended :
  exists s s',
    execute Examples.remote0 (Examples.poolConfig ["h1"; "h2"] 2)
            (firstn 8 Examples.twoHostsSchedule) = Some s
    /\ run Examples.remote0 2 [Collect] s = Some s'
    /\ map Host (results s) = ["h2"]
    /\ exists more pushed,
         results s' = results s ++ more
         /\ results s' ++ buf (responses s') = (results s ++ buf (responses s)) ++ pushed
         /\ List.length more = 1%nat /\ List.length pushed = 0%nat.
Proof.
  eexists. eexists.
  split; [vm_compute; reflexivity|].
  split; [vm_compute; reflexivity|].
  split; [reflexivity|].
  match goal with
  | |- exists more pushed, results ?s' = results ?s ++ more /\ _ =>
      assert (R : run Examples.remote0 2 [Collect] s = Some s') by (vm_compute; reflexivity);
      exact (X7_collector_appends_in_order Examples.remote0 2 [Collect] s s' R)
  end.
Defined.

Lemma printResults_trace (rs : list ExecutorResponse) (st : State) :
  Part000.printResults rs st
  = (Ret tt, {| stdin := stdin st;
                trace := trace st ++ map Stdout (flat_map result_lines rs) |}).
Proof.
  revert st. induction rs as [|r rs IH]; intros st; cbn [Part000.printResults].
  - cbn. rewrite app_nil_r. destruct st; reflexivity.
  - unfold bind, emit. rewrite IH. cbn [stdin trace flat_map result_lines map app].
    rewrite <- !app_assoc. reflexivity.
Qed.

(** X8: when the collector loop has ended, in a pool with at least one
    worker (workers as the pool of [execute] is modelled), the loop that
    ends [execute] prints three pieces for every collected response, in
    the order of collection, reads nothing and returns; the responses are
    as many as the hosts of the list, so every host of the list is
    printed exactly once, with what the remote side answered for it. *)
Theorem X8_report_prints_every_host_once :
  forall (remote : string -> string) (c : ExecutionConfig)
         (acts : list action) (s : pool) (st : State),
    1 <= threads c ->
    fresh_channels c = true ->
    execute remote c acts = Some s ->
    collected (List.length (Servers c)) s = true ->
    Part000.printResults (results s) st
    = (Ret tt, {| stdin := stdin st;
                  trace := trace st ++ map Stdout (flat_map result_lines (results s)) |})
    /\ List.length (flat_map result_lines (results s)) = (3 * List.length (Servers c))%nat
    /\ Permutation (map Host (results s)) (Servers c)
    /\ Forall (fun r => ResponseData r = remote (Host r)) (results s).
Proof.
  intros remote c acts s st T F E C. unfold execute in E.
  destruct (start c) as [s0|] eqn:S; [|discriminate].
  destruct (start_inv remote c s0 F S) as [I0 _].
  destruct (run_inv remote _ _ acts s0 s I0 E) as [I _].
  destruct (collected_all remote _ _ s I C) as (L & P & D).
  split; [apply printResults_trace|].
  split; [|split; assumption].
  rewrite <- L. clear. induction (results s) as [|r rs IH]; [reflexivity|].
  cbn [flat_map result_lines app List.length]. rewrite IH. lia.
Qed.

(** X8 on two hosts and two workers: six pieces, the second host first. *)
Lemma X8_two_hosts_report :
  exists s,
    execute Examples.remote0 (Examples.poolConfig ["h1"; "h2"] 2)
            Examples.twoHostsSchedule = Some s
    /\ List.length (flat_map result_lines (results s)) = 6%nat
    /\ map Host (results s) = ["h2"; "h1"].
Proof.
  eexists. split; [vm_compute; reflexivity|].
  split; [|reflexivity].
  match goal with
  | |- List.length (flat_map result_lines (results ?s)) = _ =>
      assert (E : execute Examples.remote0 (Examples.poolConfig ["h1"; "h2"] 2)
                          Examples.twoHostsSchedule = Some s) by (vm_compute; reflexivity);
      exact (proj1 (proj2 (X8_report_prints_every_host_once Examples.remote0
                             (Examples.poolConfig ["h1"; "h2"] 2)
                             Examples.twoHostsSchedule s (start_state [])
                             ltac:(vm_compute; discriminate) eq_refl E eq_refl)))
  end.
Defined.

(* ================================================================= *)
(** ** Further properties of the front ends *)

Lemma eqb_empty_false (s : string) : (s =? "")%string = false <-> s <> "".
Proof. apply String.eqb_neq. Qed.

(** X9: [getScriptSrc], the same function in both programs, returns nil
    exactly for the empty path, without looking at any file; for any
    other path it returns the content of that file, or ends the run with
    exit status 1 exactly when the file cannot be read. *)
Theorem X9_getScriptSrc :
  forall env path st,
    let r := MainGo.getScriptSrc env path st in
    Part000.getScriptSrc env path st = r
    /\ (fst r = Ret None <-> path = "")
    /\ (path = "" -> snd r = st)
    /\ (forall src, fst r = Ret (Some src)
                    <-> path <> "" /\ ioutil_ReadFile env path = Val src)
    /\ (exited r = true <-> path <> "" /\ exists e, ioutil_ReadFile env path = Err e)
    /\ (exited r = true -> exit_status r = 1).
Proof.
  intros env path st r. subst r.
  split; [reflexivity|].
  unfold MainGo.getScriptSrc, log_Fatal, os_Exit, emit, bind, ret, exited, exit_status.
  destruct (String.eqb_spec path "") as [->|NE]; cbn [fst snd].
  - split; [tauto|]. split; [reflexivity|].
    split; [intros src; split; [discriminate | intros [C _]; now contradiction C]|].
    split; [split; [discriminate | intros [C _]; now contradiction C] | discriminate].
  - destruct (ioutil_ReadFile env path) as [src0|e0]; cbn [fst snd].
    + split; [split; [discriminate | contradiction]|].
      split; [contradiction|].
      split; [intros src; split;
              [intros H; injection H as <-; auto | intros [_ H]; injection H as <-; reflexivity]|].
      split; [split; [discriminate | intros [_ [e H]]; discriminate H] | discriminate].
    + split; [split; [discriminate | contradiction]|].
      split; [contradiction|].
      split; [intros src; split; [discriminate | intros [_ H]; discriminate H]|].
      split; [split; [intros _; split; [assumption | eauto] | reflexivity] | reflexivity].
Qed.



(** X11: [load] asks for the user name before it looks at the host list:
    with an empty user name (and neither help nor version asked for) the
    run prints "Username required." and the flags and ends with exit
    status 1, whatever the arguments are, and nothing else has happened. *)
Theorem X11_load_requires_user :
  forall NewScriptExecutor env f input,
    flagHelp f = false ->
    flagVersion f = false ->
    flagUser f = "" ->
    load NewScriptExecutor env f (start_state input)
    = (Exit 1, {| stdin := input;
                  trace := [Stdout "Username required."; PrintDefaults] |}).
Proof.
  intros NSE env f input H V U. unfold_proc. rewrite H, V, U. reflexivity.
Qed.

Lemma X11_no_user_name :
  let env := Examples.machine true Examples.good_default_key true in
  let f := Examples.gossh0
             {| Getenv := fun _ => ""; NumCPU := NumCPU env;
                ReadInConfig := ReadInConfig env; net_Dial_unix := net_Dial_unix env;
                ioutil_ReadFile := ioutil_ReadFile env;
                ssh_ParsePrivateKey := ssh_ParsePrivateKey env;
                knownhosts_New := knownhosts_New env; Sprintf0 := Sprintf0 env |}
             ["h1,h2"; "uptime"] in
  exit_status (load Examples.scriptExecutor env f (start_state [])) = 1.
Proof.
  intros env f.
  rewrite (X11_load_requires_user Examples.scriptExecutor env f [] eq_refl eq_refl eq_refl).
  reflexivity.
Defined.


(** X13: a read of the password that fails.  The provider of [main.go]
    hands the error to its caller with an empty password: the process
    goes on, and each call takes one line off the terminal.  In [load]
    the failure is fatal: after its one prompt the run ends in
    [log.Fatal], exit status 1. *)
Theorem X13_failed_password_read :
  (forall st,
     exited (MainGo.passwordCallback st) = false
     /\ stdin (snd (MainGo.passwordCallback st)) = tl (stdin st)
     /\ (forall e rest, stdin st = Err e :: rest ->
                        fst (MainGo.passwordCallback st) = Ret ("", Some e)))
  /\ (forall NewScriptExecutor env f e0 e rest,
        Part000.flags_pass f = true ->
        workload_pass NewScriptExecutor f = true ->
        Part000.trust_pass env f = true ->
        flagIdentityFile f = "" ->
        ioutil_ReadFile env (Getenv env "HOME" ++ "/.ssh/id_rsa")%string = Err e0 ->
        let r := load NewScriptExecutor env f (start_state (Err e :: rest)) in
        exit_status r = 1
        /\ prompts (final_trace r) = 1%nat
        /\ last (final_trace r) PrintDefaults
           = LogFatal ("Could not read password: " ++ e)%string).
Proof.
  split.
  - intros st. unfold_proc. destruct (stdin st) as [|[line|e] rest] eqn:S; cbn.
    + repeat split; intros; discriminate.
    + repeat split; intros; discriminate.
    + repeat split. intros e' rest' H. injection H as <- _. reflexivity.
  - intros NSE env f e0 e rest F W T I R r. subst r.
    unfold Part000.flags_pass in F. split_flags F.
    unfold workload_pass in W. unfold Part000.trust_pass in T.
    unfold_proc. rewrite F, F2, F1, I, R. cbn [String.eqb negb].
    destruct (Args f) as [|arg0 args]; [discriminate|].
    cbn [NewServerList tl] in *.
    unfold start_state.
    repeat (cbn [fst snd stdin trace]; branch); try discriminate; cbn; repeat split.
Qed.

(** X13 on a machine without key files where the read of the password
    is interrupted. *)
Lemma X13_interrupted_prompt :
  let env := Examples.machine true Examples.no_files true in
  fst (MainGo.passwordCallback (start_state [Err "interrupted"]))
  = Ret ("", Some "interrupted")
  /\ exit_status (load Examples.scriptExecutor env
                    (Examples.gossh0 env ["h1,h2"; "uptime"])
                    (start_state [Err "interrupted"])) = 1.
Proof.
  intros env. split.
  - exact (proj2 (proj2 (proj1 X13_failed_password_read (start_state [Err "interrupted"])))
             "interrupted" [] eq_refl).
  - exact (proj1 (proj2 X13_failed_password_read Examples.scriptExecutor env
                    (Examples.gossh0 env ["h1,h2"; "uptime"])
                    "open: no such file or directory" "interrupted" []
                    eq_refl eq_refl eq_refl eq_refl eq_refl)).
Defined.

Lemma TrimLeftSpace_fixed (s : string) :
  startsWithSpace s = false -> TrimLeftSpace s = s.
Proof.
  destruct s as [|c rest]; [reflexivity|].
  unfold startsWithSpace; cbn. intros ->. reflexivity.
Qed.

Lemma TrimRightSpace_fixed (s : string) :
  endsInSpace s = false -> TrimRightSpace s = s.
Proof.
  unfold endsInSpace.
  induction s as [|c rest IH]; [reflexivity|].
  cbn [lastByte TrimRightSpace]. destruct rest as [|d rest'].
  - cbn. intros ->. reflexivity.
  - intros H. rewrite (IH H). reflexivity.
Qed.

Lemma TrimSpace_fixed (s : string) :
  TrimSpace s = s <-> startsWithSpace s = false /\ endsInSpace s = false.
Proof.
  split.
  - intros E. destruct (TrimSpace_ends s) as [A B]. rewrite E in A, B. auto.
  - intros [A B]. unfold TrimSpace. rewrite (TrimLeftSpace_fixed _ A).
    now apply TrimRightSpace_fixed.
Qed.

Lemma TrimSpace_allSpace (s : string) : allSpace s = true -> TrimSpace s = "".
Proof.
  unfold TrimSpace. induction s as [|c rest IH]; [reflexivity|].
  cbn [allSpace TrimLeftSpace]. intros H. apply andb_true_iff in H as [C R].
  rewrite C. exact (IH R).
Qed.

(** X14: of an ASCII line typed at the prompt, the password provider of
    [main.go] and the prompt of the single-file program return the line
    itself exactly when it neither begins nor ends with white space
    (white space inside the password is kept); a line of white space
    only, the empty line included, gives the empty password with no
    error. *)
Theorem X14_password_kept_or_emptied :
  forall line rest t,
    allASCII line = true ->
    let st := {| stdin := Val line :: rest; trace := t |} in
    fst (passwordPrompt st) = fst (MainGo.passwordCallback st)
    /\ (fst (MainGo.passwordCallback st) = Ret (line, None)
        <-> startsWithSpace line = false /\ endsInSpace line = false)
    /\ (allSpace line = true -> fst (MainGo.passwordCallback st) = Ret ("", None)).
Proof.
  intros line rest t _ st. subst st.
  split; [reflexivity|].
  change (fst (MainGo.passwordCallback {| stdin := Val line :: rest; trace := t |}))
    with (@Ret (string * option error) (TrimSpace line, None)).
  split.
  - rewrite <- TrimSpace_fixed. split.
    + intros H. injection H as H. exact H.
    + intros ->. reflexivity.
  - intros A. rewrite (TrimSpace_allSpace _ A). reflexivity.
Qed.

(** X14 on a password with a space inside and on a line of blanks. *)
Lemma X14_inner_space_kept :
  fst (MainGo.passwordCallback (start_state [Val "pass word"])) = Ret ("pass word", None)
  /\ fst (MainGo.passwordCallback (start_state [Val "   "])) = Ret ("", None).
Proof.
  split.
  - apply (proj1 (proj2 (X14_password_kept_or_emptied "pass word" [] [] eq_refl))).
    split; reflexivity.
  - apply (proj2 (proj2 (X14_password_kept_or_emptied "   " [] [] eq_refl))).
    reflexivity.
Defined.

(** X15: [load] returns, and [execute] is entered, exactly when the flags
    pass (no help, no version, a user name, a host list), an executor can
    be made, the host keys are available and a method of authentication
    can be made; in every other case it ends the process. *)
Theorem X15_load_returns_iff :
  forall NewScriptExecutor env f input,
    exited (load NewScriptExecutor env f (start_state input))
    = negb (Part000.flags_pass f && workload_pass NewScriptExecutor f
            && Part000.trust_pass env f && auth_pass env f input).
Proof.
  intros NSE env f input.
  unfold Part000.flags_pass, workload_pass, Part000.trust_pass, auth_pass, start_state.
  all_paths; cbn; try reflexivity; try discriminate;
    repeat match goal with
      | H : negb _ = _ |- _ => rewrite H
      | H : _ = _ |- _ => rewrite H
      end; cbn; try reflexivity; try congruence.
Qed.

(** X16: the configuration of [main] returns, and the pool is started or
    the missing workload reported, exactly when the flags pass (no help,
    no version, a host list that parses), the host keys are available and
    the key lets the run go on; the agent plays no part in it. *)
Theorem X16_configure_returns_iff :
  forall gc env f st,
    exited (MainGo.configure gc env f st)
    = negb (MainGo.flags_pass gc f && MainGo.trust_pass env f && MainGo.key_pass env f).
Proof.
  intros gc env f st.
  unfold MainGo.flags_pass, MainGo.trust_pass, MainGo.key_pass, MainGo.chosen_identity.
  all_paths; cbn; try reflexivity; try discriminate;
    repeat match goal with
      | H : negb _ = _ |- _ => rewrite H
      | H : _ = _ |- _ => rewrite H
      end; cbn; try reflexivity; try congruence.
Qed.

(** X17: the configuration [load] returns carries the flags as they were
    given: worker count, port, sudo, verbosity and user name (which is
    not empty); the handshake timeout is 20 seconds; the host list is the
    parse of the first argument and has at least one host; host keys are
    ignored exactly when [--NoStrictHostCheck] is set; and a script, when
    one is given, is what is run, command tokens after the host list
    being used only when no script is given. *)
Theorem X17_load_carries_the_flags :
  forall NewScriptExecutor env f st c st',
    load NewScriptExecutor env f st = (Ret c, st') ->
    NumProcs c = flagProcs f
    /\ SSHPort c = flagPort f
    /\ Part000.Sudo c = flagSudo f
    /\ Verbose c = flagVerbose f
    /\ User (SSHClientConfig c) = flagUser f
    /\ flagUser f <> ""
    /\ Timeout (SSHClientConfig c) = 20
    /\ Servers c = Split (hd "" (Args f)) comma
    /\ (1 <= List.length (Servers c))%nat
    /\ HostKey (SSHClientConfig c)
       = (if flagStrictHostCheck f then InsecureIgnoreHostKey
          else KnownHosts (Sprintf0 env (flagKnownHostsFile f)))
    /\ (if (flagScript f =? "")%string
        then Handler c = CommandExecutor (tl (Args f)) /\ tl (Args f) <> []
        else NewScriptExecutor (flagScript f) (ComChannel c) = Val (Handler c)).
Proof.
  intros NSE env f st c st' L.
  assert (N : (1 <= List.length (Split (hd "" (Args f)) comma))%nat)
    by (rewrite Split_length; lia).
  revert L. all_paths; intros L; try discriminate L;
    injection L as <- _;
    cbn [NumProcs SSHPort Part000.Sudo Verbose SSHClientConfig User Timeout
         Servers HostKey Handler ComChannel hd tl] in *;
    repeat match goal with
      | H : negb _ = true |- _ => apply negb_true_iff in H
      | H : negb _ = false |- _ => apply negb_false_iff in H
      | H : NewServerList _ = (_, None) |- _ => injection H as <-
      end;
    repeat match goal with
      | H : (flagScript f =? "")%string = _ |- _ => rewrite H
      | H : (flagUser f =? "")%string = false |- _ => apply String.eqb_neq in H
      end;
    repeat split; try assumption; try reflexivity; try discriminate.
Qed.

(** X17 on [gossh -S deploy.sh h1,h2 uptime]: the script is run, the
    command token is not. *)
Lemma X17_script_before_commands :
  let env := Examples.machine true Examples.good_default_key true in
  let f := {| flagHelp := false; flagUser := "operator"; flagIdentityFile := "";
              flagSudo := true; flagVerbose := false; flagScript := "deploy.sh";
              flagPort := 2222; flagProcs := 8; flagVersion := false;
              flagKnownHostsFile := "/home/operator/.ssh/known_hosts";
              flagStrictHostCheck := false; Args := ["h1,h2"; "uptime"] |} in
  exists c st',
    load Examples.scriptExecutor env f (start_state []) = (Ret c, st')
    /\ Handler c = ScriptExecutor "deploy.sh"
    /\ NumProcs c = 8 /\ SSHPort c = 2222 /\ Part000.Sudo c = true.
Proof.
  intros env f. eexists. eexists. split; [vm_compute; reflexivity|].
  match goal with
  | |- Handler ?c = _ /\ _ =>
      destruct (X17_load_carries_the_flags Examples.scriptExecutor env f
                  (start_state []) c _ eq_refl)
        as (P & Q & S & _)
  end.
  split; [reflexivity|]. split; [exact P|]. split; [exact Q | exact S].
Defined.


